(** * Log monitor: rate limiter, notification dispatch, log tailer and
      error extractor

    A shallow embedding of [notification_manager.py] and
    [log_watcher_component.py], and the properties of the specification
    proved (or refuted) on it.

    Conventions of the embedding.
    - The wall clock is an input: every function that calls [time.time()]
      or [datetime.now()] receives the value read.  [time.time()] is read
      as an exact number (an integer count of clock ticks); the rounding of
      floating-point subtraction is not modelled.
    - [print] calls are dropped; the effects that matter (callback
      invocations, sink attempts, reads of the file) are recorded in
      traces, in program order.
    - An exception is a value: an operation that may raise returns an
      [option] or a [completion]. *)

From Stdlib Require Import ZArith List String Ascii Bool Lia PeanoNat.
Import ListNotations.

Local Open Scope string_scope.
Local Open Scope list_scope.
Local Open Scope nat_scope.

(** How a call ends: it returns, or an exception propagates out of it. *)
Inductive completion : Type := Returned | Raised.

(* ================================================================== *)
(** ** Python text operations used by the watcher

    Text is a [string]; a character stands for the code point of the same
    number, so the model covers text of code points below 256, and the
    classifications below are Python's on that range. *)
(* ================================================================== *)

Module PyStr.

(** [c.isspace()], the characters [str.strip()] removes. *)
Definition isspace (c : ascii) : bool :=
  let n := nat_of_ascii c in
  ((9 <=? n) && (n <=? 13)) || ((28 <=? n) && (n <=? 32))
  || (n =? 133) || (n =? 160).

(** [\d] of a [str] pattern: the decimal digits. *)
Definition isdecimal (c : ascii) : bool :=
  let n := nat_of_ascii c in (48 <=? n) && (n <=? 57).

Definition is_ascii_upper (c : ascii) : bool :=
  let n := nat_of_ascii c in (65 <=? n) && (n <=? 90).

Definition is_ascii_lower (c : ascii) : bool :=
  let n := nat_of_ascii c in (97 <=? n) && (n <=? 122).

(** [\w] of a [str] pattern: alphanumeric characters and the underscore. *)
Definition isword (c : ascii) : bool :=
  let n := nat_of_ascii c in
  isdecimal c || is_ascii_upper c || is_ascii_lower c || (n =? 95)
  || (n =? 170) || (n =? 178) || (n =? 179) || (n =? 181)
  || (n =? 185) || (n =? 186) || ((188 <=? n) && (n <=? 190))
  || ((192 <=? n) && (n <=? 214)) || ((216 <=? n) && (n <=? 246))
  || (248 <=? n).

(** Lower and upper case of the letters A-Z and a-z; the patterns of the
    watcher that use them are made of these letters only. *)
Definition lower (c : ascii) : ascii :=
  if is_ascii_upper c then ascii_of_nat (nat_of_ascii c + 32) else c.

Definition upper_char (c : ascii) : ascii :=
  if is_ascii_lower c then ascii_of_nat (nat_of_ascii c - 32) else c.

Fixpoint upper (s : string) : string :=
  match s with
  | EmptyString => EmptyString
  | String c s' => String (upper_char c) (upper s')
  end.

(** Every character of [s] satisfies [p]. *)
Fixpoint all (p : ascii -> bool) (s : string) : bool :=
  match s with
  | EmptyString => true
  | String c s' => p c && all p s'
  end.

(** Truth value of a string: non-empty. *)
Definition truthy (s : string) : bool :=
  match s with EmptyString => false | String _ _ => true end.

Fixpoint mem (c : ascii) (chars : string) : bool :=
  match chars with
  | EmptyString => false
  | String d rest => Ascii.eqb c d || mem c rest
  end.

Fixpoint lstrip_by (p : ascii -> bool) (s : string) : string :=
  match s with
  | EmptyString => EmptyString
  | String c s' => if p c then lstrip_by p s' else s
  end.

Fixpoint rstrip_by (p : ascii -> bool) (s : string) : string :=
  match s with
  | EmptyString => EmptyString
  | String c s' =>
      match rstrip_by p s' with
      | EmptyString => if p c then EmptyString else String c EmptyString
      | r => String c r
      end
  end.

Definition strip_by (p : ascii -> bool) (s : string) : string :=
  rstrip_by p (lstrip_by p s).

(** [s.strip()] *)
Definition strip (s : string) : string := strip_by isspace s.

(** [s.strip(chars)] *)
Definition strip_chars (chars : string) (s : string) : string :=
  strip_by (fun c => mem c chars) s.

(** [s.split(sep)] for a one-character separator. *)
Fixpoint split (sep : ascii) (s : string) : list string :=
  match s with
  | EmptyString => [EmptyString]
  | String c s' =>
      if Ascii.eqb c sep then EmptyString :: split sep s'
      else match split sep s' with
           | [] => [String c EmptyString]
           | piece :: pieces => String c piece :: pieces
           end
  end.

(** The pieces of a text when [x] is written before it: [x] joins the
    first piece. *)
Definition prepend (x : string) (pieces : list string) : list string :=
  match pieces with
  | [] => [x]
  | piece :: rest => (x ++ piece)%string :: rest
  end.

Fixpoint drop (n : nat) (s : string) : string :=
  match n, s with
  | O, _ => s
  | S n', EmptyString => EmptyString
  | S n', String _ s' => drop n' s'
  end.

(** [sub in s] *)
Fixpoint contains (sub s : string) : bool :=
  prefix sub s
  || match s with
     | EmptyString => false
     | String _ s' => contains sub s'
     end.

(** The text before and after the first occurrence of [sep] in [s]. *)
Fixpoint partition (sep s : string) : option (string * string) :=
  if prefix sep s then Some (EmptyString, drop (String.length sep) s)
  else match s with
       | EmptyString => None
       | String c s' =>
           match partition sep s' with
           | Some (before, after) => Some (String c before, after)
           | None => None
           end
       end.

(** [s.split(sep, 1)] for a non-empty [sep]. *)
Definition split1 (sep s : string) : list string :=
  match partition sep s with
  | Some (before, after) => [before; after]
  | None => [s]
  end.

End PyStr.

(* ================================================================== *)
(** ** The regular expressions of the watcher

    [re] is a library, not code of the program; the patterns the program
    writes out itself are modelled by matchers for their two shapes:
    a fixed sequence of character classes with one group (the timestamp
    patterns), and [\b(w1|...|wn)\b] under [re.IGNORECASE] (the level
    patterns).  [re.search] returns the leftmost match; at one position
    the alternatives are tried in order. *)
(* ================================================================== *)

Module Re.

Import PyStr.

Inductive atom : Type :=
| Digit                 (* \d *)
| Lit (c : ascii).      (* a literal character *)

Definition atom_matches (a : atom) (c : ascii) : bool :=
  match a with
  | Digit => isdecimal c
  | Lit d => Ascii.eqb c d
  end.

(** A sequence of atoms with one group: [group_start] atoms precede the
    group, which spans [group_len] atoms. *)
Record seq_pattern : Type :=
  { atoms : list atom; group_start : nat; group_len : nat }.

(** The text the atoms match at the start of [s], if they do. *)
Fixpoint match_here (p : list atom) (s : string) : option string :=
  match p with
  | [] => Some EmptyString
  | a :: p' =>
      match s with
      | EmptyString => None
      | String c s' =>
          if atom_matches a c
          then option_map (String c) (match_here p' s')
          else None
      end
  end.

(** [re.search(p, s)]: the leftmost match. *)
Fixpoint search (p : list atom) (s : string) : option string :=
  match match_here p s with
  | Some m => Some m
  | None =>
      match s with
      | EmptyString => None
      | String _ s' => search p s'
      end
  end.

(** [re.search(p, s)] followed by [match.group(1)]. *)
Definition search_group1 (p : seq_pattern) (s : string) : option string :=
  option_map (substring (group_start p) (group_len p)) (search (atoms p) s).

(** [w] matched ignoring case at the start of [s]: the text matched, the
    rest of [s], and whether the character before the rest is a word
    character ([before] when [w] is empty). *)
Fixpoint imatch (w s : string) (before : bool)
  : option (string * string * bool) :=
  match w with
  | EmptyString => Some (EmptyString, s, before)
  | String p w' =>
      match s with
      | EmptyString => None
      | String c s' =>
          if Ascii.eqb (lower p) (lower c)
          then match imatch w' s' (isword c) with
               | Some (m, rest, b) => Some (String c m, rest, b)
               | None => None
               end
          else None
      end
  end.

(** [\b] between a character of wordness [before] and the text [rest]. *)
Definition word_boundary (before : bool) (rest : string) : bool :=
  xorb before
       match rest with
       | EmptyString => false
       | String c _ => isword c
       end.

(** [(w1|...|wn)\b] at the start of [s]: the first alternative, in order,
    after which there is a word boundary. *)
Fixpoint first_alternative (alts : list string) (s : string) (before : bool)
  : option string :=
  match alts with
  | [] => None
  | w :: more =>
      match imatch w s before with
      | Some (m, rest, b) =>
          if word_boundary b rest then Some m
          else first_alternative more s before
      | None => first_alternative more s before
      end
  end.

(** [re.search(r'\b(w1|...|wn)\b', s, re.IGNORECASE)] then [group(1)];
    [before] is the wordness of the character before [s]. *)
Fixpoint search_words_from (alts : list string) (before : bool) (s : string)
  : option string :=
  match (if word_boundary before s
         then first_alternative alts s before else None) with
  | Some m => Some m
  | None =>
      match s with
      | EmptyString => None
      | String c s' => search_words_from alts (isword c) s'
      end
  end.

Definition search_words (alts : list string) (s : string) : option string :=
  search_words_from alts false s.

(** [re.compile(keyword, re.IGNORECASE).search(s)] is a match, for a
    keyword without metacharacters (letters and digits): the keyword
    occurs in [s], ignoring case. *)
Fixpoint search_keyword (keyword s : string) : bool :=
  match imatch keyword s false with
  | Some _ => true
  | None =>
      match s with
      | EmptyString => false
      | String _ s' => search_keyword keyword s'
      end
  end.

End Re.

(* ================================================================== *)
(** ** The error record

    The dictionary [_extract_error_info] returns, with its six keys. *)
(* ================================================================== *)

Record error_info : Type :=
  { timestamp : string;
    level : string;
    message : string;
    line : string;
    matched_keyword : string;
    detected_at : string }.

(* ================================================================== *)
(** ** [class LogFileHandler]

    The monitored file is seen through what each call observes of it: the
    size in bytes [os.path.getsize] reports, and the text that [open],
    [seek(offset)] and [read(count)] deliver.  Text input is a library
    (UTF-8 decoding and newline translation of the bytes from a byte
    offset, up to a count of characters): what it returns is part of the
    observation.  For a file of plain ASCII text without carriage returns a
    byte is a character, and the read is the substring of the text at the
    offset ([holding] below). *)
(* ================================================================== *)

Module LogFileHandler.

Import PyStr Re.

(** The two clock reads of one call of [_extract_error_info]. *)
Record clock : Type :=
  { now_strftime : string;   (* datetime.now().strftime("%Y-%m-%d %H:%M:%S") *)
    now_isoformat : string } (* datetime.now().isoformat() *).

Definition newline : ascii := ascii_of_nat 10.

(** [\d{4}-\d{2}-\d{2} \d{2}:\d{2}:\d{2}] *)
Definition datetime_atoms : list atom :=
  [Digit; Digit; Digit; Digit; Lit "-"; Digit; Digit; Lit "-"; Digit; Digit;
   Lit " "; Digit; Digit; Lit ":"; Digit; Digit; Lit ":"; Digit; Digit].

Definition timestamp_patterns : list seq_pattern :=
  [ {| atoms := datetime_atoms; group_start := 0; group_len := 19 |};
    {| atoms := Lit "[" :: datetime_atoms ++ [Lit "]"];
       group_start := 1; group_len := 19 |} ].

Definition level_patterns : list (list string) :=
  [ ["ERROR"; "CRITICAL"; "FATAL"; "EXCEPTION"; "FAIL"];
    ["WARN"; "WARNING"] ].

(** [s] is of the form of [datetime_atoms], from its first to its last
    character. *)
Definition datetime_shaped (s : string) : Prop :=
  match_here datetime_atoms s = Some s.

(** The loop over [timestamp_patterns]: group 1 of the first pattern that
    matches. *)
Fixpoint find_timestamp (patterns : list seq_pattern) (line : string)
  : option string :=
  match patterns with
  | [] => None
  | pattern :: rest =>
      match search_group1 pattern line with
      | Some g => Some g
      | None => find_timestamp rest line
      end
  end.

(** The loop over [level_patterns]: group 1, in upper case, of the first
    pattern that matches. *)
Fixpoint find_level (patterns : list (list string)) (line : string)
  : option string :=
  match patterns with
  | [] => None
  | pattern :: rest =>
      match search_words pattern line with
      | Some g => Some (upper g)
      | None => find_level rest line
      end
  end.

(** [_extract_error_info(self, line, matched_keyword)] *)
Definition _extract_error_info (line matched_keyword : string) (now : clock)
  : error_info :=
  let extracted_timestamp :=
    match find_timestamp timestamp_patterns line with
    | Some ts => if truthy ts then ts else now_strftime now
    | None => now_strftime now
    end in
  let extracted_level :=
    match find_level level_patterns line with
    | Some lv => lv
    | None => "UNKNOWN"
    end in
  let message :=
    if contains extracted_level line then
      let parts := split1 extracted_level line in
      if 1 <? List.length parts
      then strip (strip_chars ":" (nth 1 parts EmptyString))
      else line
    else line in
  {| timestamp := extracted_timestamp;
     level := extracted_level;
     message := strip message;
     line := strip line;
     matched_keyword := matched_keyword;
     detected_at := now_isoformat now |}.

(** The handler object.  [error_patterns] holds the compiled keywords, as
    the predicate "[pattern.search(line)] is a match". *)
Record t : Type := mk
  { log_file_path : string;
    error_keywords : list string;
    callback : option (error_info -> completion);
    last_position : nat;
    error_patterns : list (string -> bool) }.

Definition set_last_position (pos : nat) (self : t) : t :=
  {| log_file_path := log_file_path self;
     error_keywords := error_keywords self;
     callback := callback self;
     last_position := pos;
     error_patterns := error_patterns self |}.

(** What one call observes of the outside. *)
Record world : Type :=
  { getsize : option nat;      (* os.path.getsize; None: OSError *)
    file_read : nat -> nat -> option string;
                               (* open, seek(offset), read(count): the text
                                  read; None: one of them raises *)
    clocks : nat -> clock }    (* the clock reads made for the n-th line *).

Record fs_event : Type :=
  { is_directory : bool;
    src_path : string }.

(** What a call does, in program order. *)
Inductive action : Type :=
| Read (offset : nat) (text : string)  (* seek(offset), then read gave text *)
| Line (l : string)                    (* _process_log_line(l) is called *)
| Alert (e : error_info)               (* callback(e) is called *)
| Caught                               (* an except clause ran *).

(** [_get_file_size(self)] *)
Definition _get_file_size (w : world) : nat :=
  match getsize w with
  | Some n => n
  | None => 0
  end.

(** [__init__(self, log_file_path, error_keywords, callback)], for keywords
    that compile; [compile k] is the search of
    [re.compile(k, re.IGNORECASE)]. *)
Definition init (compile : string -> string -> bool)
    (path : string) (keywords : list string)
    (cb : option (error_info -> completion)) (w : world) : t :=
  {| log_file_path := path;
     error_keywords := keywords;
     callback := cb;
     last_position := _get_file_size w;
     error_patterns := map compile keywords |}.

(** The loop of [_process_log_line] over
    [zip(self.error_patterns, self.error_keywords)], left at the first
    match by [break]. *)
Fixpoint scan_patterns (zipped : list ((string -> bool) * string))
    (cb : option (error_info -> completion)) (l : string) (now : clock)
  : list action * completion :=
  match zipped with
  | [] => ([], Returned)
  | (pattern, keyword) :: rest =>
      if pattern l then
        let info := _extract_error_info l keyword now in
        match cb with
        | Some f => ([Alert info], f info)
        | None => ([], Returned)
        end
      else scan_patterns rest cb l now
  end.

(** [_process_log_line(self, line)] *)
Definition _process_log_line (self : t) (l : string) (now : clock)
  : list action * completion :=
  scan_patterns (combine (error_patterns self) (error_keywords self))
                (callback self) l now.

(** The loop [for line in lines] of [_read_new_content]; an exception
    leaves it. *)
Fixpoint process_lines (self : t) (lines : list string)
    (clk : nat -> clock) (i : nat) : list action * completion :=
  match lines with
  | [] => ([], Returned)
  | l :: rest =>
      if truthy (strip l) then
        match _process_log_line self l (clk i) with
        | (acts, Returned) =>
            let '(more, c) := process_lines self rest clk (S i) in
            (Line l :: acts ++ more, c)
        | (acts, Raised) => (Line l :: acts, Raised)
        end
      else process_lines self rest clk (S i)
  end.

(** [_read_new_content(self, current_size)]: the whole body is inside one
    [try]; its [except] clause ends the call.  [file_read w offset count]
    is what [open], [file.seek(offset)] and [file.read(count)] deliver;
    when one of them raises, the position has not been assigned yet. *)
Definition _read_new_content (self : t) (current_size : nat) (w : world)
  : t * list action :=
  match file_read w (last_position self)
                  (current_size - last_position self) with
  | None => (self, [Caught])
  | Some new_content =>
      let self1 := set_last_position current_size self in
      let read := Read (last_position self) new_content in
      if truthy (strip new_content) then
        let lines := split newline (strip new_content) in
        match process_lines self1 lines (clocks w) 0 with
        | (acts, Returned) => (self1, read :: acts)
        | (acts, Raised) => (self1, read :: acts ++ [Caught])
        end
      else (self1, [read])
  end.

(** The first [if] of [on_modified]: a smaller size resets the position. *)
Definition reset_if_truncated (current_size : nat) (self : t) : t :=
  if current_size <? last_position self
  then set_last_position 0 self
  else self.

(** [on_modified(self, event)] *)
Definition on_modified (self : t) (event : fs_event) (w : world)
  : t * list action :=
  if is_directory event
     || negb (String.eqb (src_path event) (log_file_path self))
  then (self, [])
  else
    let current_size := _get_file_size w in
    let self1 := reset_if_truncated current_size self in
    if current_size <=? last_position self1 then (self1, [])
    else _read_new_content self1 current_size w.

(** A run of the watcher: the change events it receives, each with what
    the call observes. *)
Fixpoint run (self : t) (events : list (fs_event * world))
  : t * list (list action) :=
  match events with
  | [] => (self, [])
  | (event, w) :: rest =>
      let '(self1, acts) := on_modified self event w in
      let '(self2, more) := run self1 rest in
      (self2, acts :: more)
  end.

(** The lines handed to [_process_log_line] and the records handed to the
    callback in a trace. *)
Fixpoint lines_of (acts : list action) : list string :=
  match acts with
  | [] => []
  | Line l :: rest => l :: lines_of rest
  | _ :: rest => lines_of rest
  end.

Fixpoint alerts_of (acts : list action) : list error_info :=
  match acts with
  | [] => []
  | Alert e :: rest => e :: alerts_of rest
  | _ :: rest => alerts_of rest
  end.

Fixpoint reads_of (acts : list action) : list (nat * string) :=
  match acts with
  | [] => []
  | Read offset text :: rest => (offset, text) :: reads_of rest
  | _ :: rest => reads_of rest
  end.


(** The lines a buffer holds for the loop: the pieces of the stripped
    buffer that are not blank. *)
Definition nonblank (l : string) : bool := truthy (strip l).

Definition lines_in (new_content : string) : list string :=
  if truthy (strip new_content)
  then filter nonblank (split newline (strip new_content))
  else [].



(** A modification event for the file at [path]. *)
Definition modified (path : string) : fs_event :=
  {| is_directory := false; src_path := path |}.


(** The file holds the plain ASCII [text] for the whole call: the size
    reported is the size of the text, and a read returns the characters of
    the text from the offset, up to the count. *)
Definition holding (text : string) (clk : nat -> clock) : world :=
  {| getsize := Some (String.length text);
     file_read := fun offset count => Some (substring offset count text);
     clocks := clk |}.



End LogFileHandler.

(* ================================================================== *)
(** ** Calendar date-times

    Following the words of the specification ("parseable back to a valid
    date"): the text has the form [YYYY-MM-DD HH:MM:SS] and names a date
    and a time of day that exist, which is when
    [datetime.strptime(s, "%Y-%m-%d %H:%M:%S")] accepts a text of that
    form. *)
(* ================================================================== *)

Module Calendar.

Definition digit_value (c : ascii) : nat := nat_of_ascii c - 48.

Fixpoint number_from (acc : nat) (s : string) : nat :=
  match s with
  | EmptyString => acc
  | String c s' => number_from (10 * acc + digit_value c) s'
  end.

Definition field (start len : nat) (s : string) : nat :=
  number_from 0 (substring start len s).

Definition leap (year : nat) : bool :=
  ((year mod 4 =? 0) && negb (year mod 100 =? 0)) || (year mod 400 =? 0).

Definition days_in_month (year month : nat) : nat :=
  match month with
  | 1 | 3 | 5 | 7 | 8 | 10 | 12 => 31
  | 4 | 6 | 9 | 11 => 30
  | 2 => if leap year then 29 else 28
  | _ => 0
  end.

Definition is_calendar_datetime (s : string) : bool :=
  match Re.match_here LogFileHandler.datetime_atoms s with
  | Some m =>
      String.eqb m s
      && (1 <=? field 0 4 s)
      && (1 <=? field 5 2 s) && (field 5 2 s <=? 12)
      && (1 <=? field 8 2 s)
      && (field 8 2 s <=? days_in_month (field 0 4 s) (field 5 2 s))
      && (field 11 2 s <=? 23)
      && (field 14 2 s <=? 59)
      && (field 17 2 s <=? 59)
  | None => false
  end.

End Calendar.

(* ================================================================== *)
(** ** [class RateLimiter] *)
(* ================================================================== *)

Module RateLimiter.

Local Open Scope Z_scope.

Record t : Type := mk
  { min_interval : Z;
    last_notification_time : Z }.

(** [__init__(self, min_interval_seconds)] *)
Definition init (min_interval_seconds : Z) : t :=
  {| min_interval := min_interval_seconds;
     last_notification_time := 0 |}.

(** [should_send_notification(self)], with [current_time] the value
    [time.time()] returns in this call. *)
Definition should_send_notification (current_time : Z) (self : t)
  : bool * t :=
  let time_since_last := current_time - last_notification_time self in
  if min_interval self <=? time_since_last
  then (true, {| min_interval := min_interval self;
                 last_notification_time := current_time |})
  else (false, self).

(** [reset(self)] *)
Definition reset (self : t) : t :=
  {| min_interval := min_interval self; last_notification_time := 0 |}.

(** A sequence of calls, one per clock reading, on the same limiter. *)
Fixpoint calls (times : list Z) (self : t) : list bool * t :=
  match times with
  | [] => ([], self)
  | now :: rest =>
      let '(r, self1) := should_send_notification now self in
      let '(rs, self2) := calls rest self1 in
      (r :: rs, self2)
  end.

(** Number of calls that returned [True]. *)
Definition grants (rs : list bool) : nat := count_occ bool_dec rs true.

(** All the clock readings lie in a window shorter than [S]. *)
Definition within_window (S : Z) (times : list Z) : Prop :=
  forall a b, In a times -> In b times -> b - a < S.

(** The call at [now] finds the interval elapsed. *)
Definition elapsed (self : t) (now : Z) : bool :=
  min_interval self <=? now - last_notification_time self.

End RateLimiter.

(* ================================================================== *)
(** ** [class EmailNotifier], [class SlackNotifier],
       [class NotificationManager]

    The transports (SMTP, the HTTP request of the webhook) are outside the
    program: a notifier carries what its delivery does for a record, which
    is to return or to raise. *)
(* ================================================================== *)

Module NotificationManager.

Inductive channel : Type := Email | Slack.

(** What a call does, in program order. *)
Inductive action : Type :=
| Granted (now : Z)                   (* the limiter set its time to now *)
| Denied (now : Z)                    (* the limiter refused *)
| Attempted (c : channel) (ok : bool) (* send_alert ran and returned ok *)
| Skipped (c : channel)               (* the channel is not configured *).

(** [EmailNotifier]: [smtp_deliver] is [_create_email_message] followed
    by [_send_via_smtp]. *)
Record EmailNotifier : Type :=
  { smtp_deliver : error_info -> completion }.

(** [SlackNotifier]: [webhook_deliver] is [_create_slack_payload],
    [requests.post] and [raise_for_status]. *)
Record SlackNotifier : Type :=
  { webhook_deliver : error_info -> completion }.

(** [EmailNotifier.send_alert]: [try ... return True],
    [except Exception: return False]. *)
Definition email_send_alert (self : EmailNotifier) (info : error_info)
  : bool :=
  match smtp_deliver self info with
  | Returned => true
  | Raised => false
  end.

(** [SlackNotifier.send_alert]: both [except] clauses return [False]. *)
Definition slack_send_alert (self : SlackNotifier) (info : error_info)
  : bool :=
  match webhook_deliver self info with
  | Returned => true
  | Raised => false
  end.

Record t : Type := mk
  { rate_limiter : RateLimiter.t;
    email_notifier : option EmailNotifier;
    slack_notifier : option SlackNotifier }.

(** The dictionary [send_all_alerts] returns. *)
Record results : Type :=
  { email_sent : bool;
    slack_sent : bool;
    any_sent : bool }.

(** [should_send_notification(self)] *)
Definition should_send_notification (now : Z) (self : t)
  : bool * t * list action :=
  let '(ok, limiter) :=
    RateLimiter.should_send_notification now (rate_limiter self) in
  (ok,
   {| rate_limiter := limiter;
      email_notifier := email_notifier self;
      slack_notifier := slack_notifier self |},
   [if ok then Granted now else Denied now]).

(** [send_email_alert(self, error_info)] *)
Definition send_email_alert (self : t) (info : error_info)
  : bool * list action :=
  match email_notifier self with
  | Some notifier =>
      let ok := email_send_alert notifier info in (ok, [Attempted Email ok])
  | None => (false, [Skipped Email])
  end.

(** [send_slack_alert(self, error_info)] *)
Definition send_slack_alert (self : t) (info : error_info)
  : bool * list action :=
  match slack_notifier self with
  | Some notifier =>
      let ok := slack_send_alert notifier info in (ok, [Attempted Slack ok])
  | None => (false, [Skipped Slack])
  end.

(** [send_all_alerts(self, error_info)], with [now] the clock read by the
    rate limiter. *)
Definition send_all_alerts (now : Z) (self : t) (info : error_info)
  : results * t * list action :=
  let results0 :=
    {| email_sent := false; slack_sent := false; any_sent := false |} in
  let '(ok, self1, acts0) := should_send_notification now self in
  if negb ok then (results0, self1, acts0)
  else
    let '(email, acts1) := send_email_alert self1 info in
    let '(slack, acts2) := send_slack_alert self1 info in
    ({| email_sent := email; slack_sent := slack;
        any_sent := email || slack |},
     self1, acts0 ++ acts1 ++ acts2).

(** The channels a trace attempts. *)
Fixpoint attempts (acts : list action) : list channel :=
  match acts with
  | [] => []
  | Attempted c _ :: rest => c :: attempts rest
  | _ :: rest => attempts rest
  end.

(** The channels the manager has a notifier for. *)
Definition configured (self : t) : list channel :=
  (match email_notifier self with Some _ => [Email] | None => [] end)
  ++ (match slack_notifier self with Some _ => [Slack] | None => [] end).

(** What a trace tells of a channel's delivery. *)
Definition sent_on (c : channel) (acts : list action) : bool :=
  existsb (fun a => match a, c with
                    | Attempted Email ok, Email => ok
                    | Attempted Slack ok, Slack => ok
                    | _, _ => false
                    end) acts.

End NotificationManager.

(* ================================================================== *)
(** ** Concrete inputs used by the examples below *)
(* ================================================================== *)

Module Scenario.

Import LogFileHandler.

Definition clock0 : clock :=
  {| now_strftime := "2026-11-03 10:00:00";
     now_isoformat := "2026-11-03T10:00:00.000250" |}.

Definition db_line : string :=
  "2024-01-15 14:30:25 ERROR: Database connection failed".

Definition db_record : error_info := _extract_error_info db_line "ERROR" clock0.

Definition clocks0 : nat -> clock := fun _ => clock0.

Definition log_path : string := "/var/log/app.log".

Definition nl : string := String newline EmptyString.

(** A callback that always returns, and one that raises on the record of
    a full disk. *)
Definition quiet : error_info -> completion := fun _ => Returned.


(** A watcher for the keyword ERROR, built while the file holds [text]. *)
Definition watcher (cb : error_info -> completion) (text : string)
  : LogFileHandler.t :=
  init Re.search_keyword log_path ["ERROR"] (Some cb) (holding text clocks0).

(** Two complete lines; the same with the second line still being
    written, and what completes it. *)
Definition two_errors : string :=
  "ERROR: disk full" ++ nl ++ "ERROR: net down" ++ nl.



(** A file of two lines, cut down to its first line, or replaced. *)
Definition old_text : string :=
  "ERROR old one" ++ nl ++ "ERROR old two" ++ nl.





(** A line whose timestamp has the digits in place and names no date. *)
Definition odd_date_line : string := "2024-13-45 25:61:61 ERROR: disk full".

Definition both_tokens_line : string :=
  "2024-01-15 14:30:25 FAIL: ERROR while saving".

(** An e-mail channel whose delivery always raises and a webhook whose
    delivery always succeeds. *)
Definition failing_email : NotificationManager.EmailNotifier :=
  {| NotificationManager.smtp_deliver := fun _ => Raised |}.

Definition working_slack : NotificationManager.SlackNotifier :=
  {| NotificationManager.webhook_deliver := fun _ => Returned |}.

Definition failing_slack : NotificationManager.SlackNotifier :=
  {| NotificationManager.webhook_deliver := fun _ => Raised |}.

(** A manager with a five-minute interval that has not sent anything. *)
Definition manager (email : option NotificationManager.EmailNotifier)
    (slack : option NotificationManager.SlackNotifier)
  : NotificationManager.t :=
  NotificationManager.mk (RateLimiter.init 300) email slack.

End Scenario.

(* ================================================================== *)
(** ** Runs of the rate limiter *)
(* ================================================================== *)

Module RateLimiterRuns.

Local Open Scope Z_scope.

(** The clock readings of the calls that were granted, in call order. *)
Definition grant_times (times : list Z) (self : RateLimiter.t) : list Z :=
  map fst (filter snd (combine times (fst (RateLimiter.calls times self)))).

(** Each time comes at least [S] after the one before it, the first one
    at least [S] after [prev]. *)
Fixpoint spaced (S prev : Z) (gs : list Z) : Prop :=
  match gs with
  | [] => True
  | g :: rest => S <= g - prev /\ spaced S g rest
  end.

(** The clock does not go back: each reading is at least the one before,
    the first one at least [prev]. *)
Fixpoint nondecreasing (prev : Z) (times : list Z) : Prop :=
  match times with
  | [] => True
  | now :: rest => prev <= now /\ nondecreasing now rest
  end.

End RateLimiterRuns.

(* ================================================================== *)
(** ** [NotificationManager.test_notifications] and
       [LogMonitorDemo.handle_error_detected] *)
(* ================================================================== *)

Module LogMonitorDemo.

Import NotificationManager.

(** The three clock reads of [test_notifications]. *)
Record test_clock : Type :=
  { timestamp_now : string;  (* strftime, for the key timestamp *)
    line_now : string;       (* strftime, for the key line *)
    detected_now : string }  (* isoformat *).

(** [NotificationManager.test_notifications(self)]; [now] is the clock
    read by the rate limiter. *)
Definition test_notifications (clk : test_clock) (now : Z) (self : t)
  : results * t * list action :=
  let test_error :=
    {| timestamp := timestamp_now clk;
       level := "TEST";
       message := "This is a test notification from Log Monitor Demo";
       line := (line_now clk
                ++ " TEST: This is a test notification from Log Monitor Demo")
               %string;
       matched_keyword := "TEST";
       detected_at := detected_now clk |} in
  let self1 :=
    {| rate_limiter := RateLimiter.reset (rate_limiter self);
       email_notifier := email_notifier self;
       slack_notifier := slack_notifier self |} in
  send_all_alerts now self1 test_error.

(** [LogMonitorDemo.handle_error_detected(self, error_info)], on the
    notifier of the monitor. *)
Definition handle_error_detected (now : Z) (notifier : t)
    (info : error_info) : t * list action :=
  let '(ok, notifier1, acts0) := should_send_notification now notifier in
  if ok then
    let '(email_sent, acts1) := send_email_alert notifier1 info in
    let '(slack_sent, acts2) := send_slack_alert notifier1 info in
    (notifier1, acts0 ++ acts1 ++ acts2)
  else (notifier1, acts0).

(** The callback called for a sequence of records, each with the clock
    the rate limiter reads for it. *)
Fixpoint handle_all (detections : list (Z * error_info)) (notifier : t)
  : t * list action :=
  match detections with
  | [] => (notifier, [])
  | (now, info) :: rest =>
      let '(notifier1, acts) := handle_error_detected now notifier info in
      let '(notifier2, more) := handle_all rest notifier1 in
      (notifier2, acts ++ more)
  end.

(** The grants of a trace. *)
Fixpoint grants_of (acts : list action) : list Z :=
  match acts with
  | [] => []
  | Granted now :: rest => now :: grants_of rest
  | _ :: rest => grants_of rest
  end.

End LogMonitorDemo.

(* ================================================================== *)
(** ** [class ConfigManager]

    [configparser] is a library: the manager is modelled on the parsed
    file, the sections with their options and the values as [configparser]
    returns them.  [int] is Python's conversion of a text to an integer,
    [None] when it raises [ValueError]; [resolve] is
    [str(Path(p).resolve())]. *)
(* ================================================================== *)

Module ConfigManager.

Import PyStr.

Definition options : Type := list (string * string).

Record t : Type := mk
  { config : list (string * options) }.

Fixpoint assoc {A : Type} (key : string) (l : list (string * A)) : option A :=
  match l with
  | [] => None
  | (k, v) :: rest => if String.eqb k key then Some v else assoc key rest
  end.

(** [has_section(self, section)] *)
Definition has_section (self : t) (section : string) : bool :=
  match assoc section (config self) with
  | Some _ => true
  | None => false
  end.

(** [get(self, section, option, fallback=None)]: the fallback stands in
    for a missing section and for a missing option. *)
Definition get (self : t) (section opt : string)
    (fallback : option string) : option string :=
  match assoc section (config self) with
  | Some opts =>
      match assoc opt opts with
      | Some v => Some v
      | None => fallback
      end
  | None => fallback
  end.

(** [getint(self, section, option, fallback)]: the outer [None] is the
    [ValueError] of a value that is no integer. *)
Definition getint (int : string -> option Z) (self : t)
    (section opt : string) (fallback : option Z) : option (option Z) :=
  match assoc section (config self) with
  | Some opts =>
      match assoc opt opts with
      | Some v => option_map Some (int v)
      | None => Some fallback
      end
  | None => Some fallback
  end.

(** [not v], for a value that is a string or [None]. *)
Definition falsy (v : option string) : bool :=
  match v with
  | Some s => negb (truthy s)
  | None => true
  end.

(** The string a [get] with a string fallback returns. *)
Definition text_of (v : option string) : string :=
  match v with
  | Some s => s
  | None => EmptyString
  end.

Definition comma : ascii := ascii_of_nat 44.

(** [get_log_file_path(self)] *)
Definition get_log_file_path (resolve : string -> string) (self : t)
  : string :=
  let log_path := text_of (get self "general" "log_file_path"
                               (Some "sample.log")) in
  resolve log_path.

(** [get_error_keywords(self)] *)
Definition get_error_keywords (self : t) : list string :=
  let keywords_str :=
    text_of (get self "general" "error_keywords"
                 (Some "ERROR, CRITICAL, EXCEPTION, FATAL")) in
  let keywords := map strip (split comma keywords_str) in
  filter truthy keywords.

(** [get_rate_limit_seconds(self)] *)
Definition get_rate_limit_seconds (int : string -> option Z) (self : t)
  : option (option Z) :=
  getint int self "general" "rate_limit_seconds" (Some 300%Z).

(** The loop of [is_email_configured] over the required fields. *)
Fixpoint all_fields_set (self : t) (fields : list string) : bool :=
  match fields with
  | [] => true
  | field :: rest =>
      if falsy (get self "email" field None) then false
      else all_fields_set self rest
  end.

(** [is_email_configured(self)] *)
Definition is_email_configured (self : t) : bool :=
  if negb (has_section self "email") then false
  else all_fields_set self
         ["sender_email"; "sender_password"; "recipient_emails"].

Definition placeholder_webhook : string :=
  "https://hooks.slack.com/services/YOUR".

(** [is_slack_configured(self)] *)
Definition is_slack_configured (self : t) : bool :=
  if negb (has_section self "slack") then false
  else
    let webhook_url := get self "slack" "webhook_url" None in
    if falsy webhook_url
       || prefix placeholder_webhook (text_of webhook_url)
    then false
    else true.

(** The dictionary of [get_email_settings]. *)
Record email_settings : Type :=
  { smtp_server : string;
    smtp_port : option Z;
    sender_email : option string;
    sender_password : option string;
    sender_name : string;
    recipient_emails : list string }.

(** [get_email_settings(self)]: [Some None] is the empty dictionary, the
    outer [None] the [ValueError] of the port. *)
Definition get_email_settings (int : string -> option Z) (self : t)
  : option (option email_settings) :=
  if negb (has_section self "email") then Some None
  else
    match getint int self "email" "smtp_port" (Some 587%Z) with
    | None => None
    | Some port =>
        Some (Some
          {| smtp_server :=
               text_of (get self "email" "smtp_server"
                            (Some "smtp.gmail.com"));
             smtp_port := port;
             sender_email := get self "email" "sender_email" None;
             sender_password := get self "email" "sender_password" None;
             sender_name :=
               text_of (get self "email" "sender_name" (Some "Log Monitor"));
             recipient_emails :=
               map strip
                 (filter (fun email => truthy (strip email))
                    (split comma
                       (text_of (get self "email" "recipient_emails"
                                     (Some EmptyString))))) |})
    end.

(** The dictionary of [get_slack_settings]. *)
Record slack_settings : Type :=
  { webhook_url : option string;
    channel : string;
    username : string }.

(** [get_slack_settings(self)] *)
Definition get_slack_settings (self : t) : option slack_settings :=
  if negb (has_section self "slack") then None
  else
    Some {| webhook_url := get self "slack" "webhook_url" None;
            channel := text_of (get self "slack" "channel" (Some "#alerts"));
            username :=
              text_of (get self "slack" "username" (Some "Log Monitor")) |}.

(** [_validate_configuration(self)]: the warnings it prints. *)
Definition _validate_configuration (resolve : string -> string) (self : t)
  : list string :=
  let w1 :=
    if negb (truthy (get_log_file_path resolve self))
    then ["Log file path not specified in [general] section"] else [] in
  let w2 :=
    match get_error_keywords self with
    | [] => ["No error keywords specified in [general] section"]
    | _ :: _ => []
    end in
  let w3 :=
    if has_section self "email" then
      (if falsy (get self "email" "sender_email" None)
       then ["Email sender_email not configured"] else [])
      ++ (if falsy (get self "email" "sender_password" None)
          then ["Email sender_password not configured"] else [])
      ++ (if falsy (get self "email" "recipient_emails" None)
          then ["Email recipient_emails not configured"] else [])
    else [] in
  let w4 :=
    if has_section self "slack" then
      let webhook := get self "slack" "webhook_url" None in
      if falsy webhook || prefix placeholder_webhook (text_of webhook)
      then ["Slack webhook_url not configured or using placeholder"]
      else []
    else [] in
  w1 ++ w2 ++ w3 ++ w4.

End ConfigManager.

(* ================================================================== *)
(** ** The constructors of the notifiers, on a configuration *)
(* ================================================================== *)

Module NotifierSetup.

Import PyStr ConfigManager.

(** The attributes [EmailNotifier.__init__] sets. *)
Record email_attributes : Type :=
  { e_smtp_server : string;
    e_smtp_port : option Z;
    e_sender_email : option string;
    e_sender_password : option string;
    e_recipient_emails : list string;
    e_sender_name : string }.

(** [EmailNotifier.__init__(self, config_manager)]; [None] when it
    raises: the port is no integer, or there is no [recipient_emails]
    to split. *)
Definition EmailNotifier_init (int : string -> option Z)
    (cfg : ConfigManager.t) : option email_attributes :=
  match getint int cfg "email" "smtp_port" (Some 587%Z) with
  | None => None
  | Some port =>
      match get cfg "email" "recipient_emails" None with
      | None => None
      | Some recipients =>
          Some {| e_smtp_server :=
                    text_of (get cfg "email" "smtp_server"
                                 (Some "smtp.gmail.com"));
                  e_smtp_port := port;
                  e_sender_email := get cfg "email" "sender_email" None;
                  e_sender_password := get cfg "email" "sender_password" None;
                  e_recipient_emails := map strip (split comma recipients);
                  e_sender_name :=
                    text_of (get cfg "email" "sender_name"
                                 (Some "Log Monitor")) |}
      end
  end.

(** [SlackNotifier.__init__(self, config_manager)] *)
Definition SlackNotifier_init (cfg : ConfigManager.t) : slack_settings :=
  {| webhook_url := get cfg "slack" "webhook_url" None;
     channel := text_of (get cfg "slack" "channel" (Some "#alerts"));
     username := text_of (get cfg "slack" "username" (Some "Log Monitor")) |}.

(** [NotificationManager.__init__(self, config_manager)]; [None] when the
    rate limit is no integer.  [smtp] and [webhook] are the deliveries of
    notifiers with the given attributes. *)
Definition NotificationManager_init (int : string -> option Z)
    (smtp : email_attributes -> error_info -> completion)
    (webhook : slack_settings -> error_info -> completion)
    (cfg : ConfigManager.t) : option NotificationManager.t :=
  match getint int cfg "general" "rate_limit_seconds" (Some 300%Z) with
  | None => None
  | Some None => None
  | Some (Some rate_limit_seconds) =>
      let email_notifier :=
        if has_section cfg "email"
           && negb (falsy (get cfg "email" "sender_email" None))
        then match EmailNotifier_init int cfg with
             | Some attrs =>
                 Some {| NotificationManager.smtp_deliver := smtp attrs |}
             | None => None
             end
        else None in
      let slack_notifier :=
        if has_section cfg "slack"
           && negb (falsy (get cfg "slack" "webhook_url" None))
        then Some {| NotificationManager.webhook_deliver :=
                       webhook (SlackNotifier_init cfg) |}
        else None in
      Some (NotificationManager.mk (RateLimiter.init rate_limit_seconds)
              email_notifier slack_notifier)
  end.

End NotifierSetup.

(* ================================================================== *)
(** ** [SlackNotifier._create_slack_payload]

    The payload is the dictionary handed to [requests.post].  The emoji of
    the alert text are written as the bytes of their UTF-8 encoding; they
    are only ever copied. *)
(* ================================================================== *)

Module SlackPayload.

Import PyStr.

Record field : Type :=
  { f_title : string;
    f_value : string;
    f_short : bool }.

Record attachment : Type :=
  { color : string;
    title : string;
    fields : list field;
    footer : string;
    footer_icon : string;
    ts : Z }.

Record payload : Type :=
  { p_channel : string;
    p_username : string;
    icon_emoji : string;
    text : string;
    attachments : list attachment }.

(** The values of [level_config]: an emoji and a colour. *)
Record style : Type :=
  { emoji : string;
    style_color : string }.

Definition level_config : list (string * style) :=
  [ ("CRITICAL", {| emoji := "🔥"; style_color := "danger" |});
    ("ERROR", {| emoji := "🚨"; style_color := "danger" |});
    ("FATAL", {| emoji := "💀"; style_color := "danger" |});
    ("EXCEPTION", {| emoji := "⚠️"; style_color := "warning" |});
    ("WARNING", {| emoji := "⚠️"; style_color := "warning" |});
    ("WARN", {| emoji := "⚠️"; style_color := "warning" |}) ].

(** [d.get(key, default)] *)
Definition dict_get {A : Type} (d : list (string * A)) (key : string)
    (default : A) : A :=
  match ConfigManager.assoc key d with
  | Some v => v
  | None => default
  end.

(** [_create_slack_payload(self, error_info)]; [channel] and [username]
    are the attributes of the notifier, [now] is [int(time.time())]. *)
Definition _create_slack_payload (channel username : string) (now : Z)
    (info : error_info) : payload :=
  let config :=
    dict_get level_config (level info)
             {| emoji := "📢"; style_color := "good" |} in
  let alert_text :=
    (emoji config ++ " *Log Monitor Alert*: " ++ level info ++ " detected")
    %string in
  let base_fields :=
    [ {| f_title := "Timestamp"; f_value := timestamp info;
         f_short := true |};
      {| f_title := "Level"; f_value := level info; f_short := true |};
      {| f_title := "Matched Keyword"; f_value := matched_keyword info;
         f_short := true |};
      {| f_title := "Detection Time"; f_value := detected_at info;
         f_short := true |};
      {| f_title := "Error Message";
         f_value := ("```" ++ message info ++ "```")%string;
         f_short := false |} ] in
  let all_fields :=
    if negb (String.eqb (line info) (message info))
    then base_fields
         ++ [ {| f_title := "Full Log Line";
                 f_value := ("```" ++ line info ++ "```")%string;
                 f_short := false |} ]
    else base_fields in
  {| p_channel := channel;
     p_username := username;
     icon_emoji := ":warning:";
     text := alert_text;
     attachments :=
       [ {| color := style_color config;
            title := (level info ++ ": "
                      ++ substring 0 100 (message info) ++ "...")%string;
            fields := all_fields;
            footer := "Log Monitor Demo";
            footer_icon :=
              "https://cdn-icons-png.flaticon.com/512/2919/2919906.png";
            ts := now |} ] |}.

End SlackPayload.

(* ================================================================== *)
(** ** More concrete inputs *)
(* ================================================================== *)

Module Scenario2.

(** A configuration with every section filled in. *)
Definition full_config : ConfigManager.t :=
  ConfigManager.mk
    [ ("general", [ ("log_file_path", "app.log");
                    ("error_keywords", "ERROR, FAIL ,, CRITICAL");
                    ("rate_limit_seconds", "60") ]);
      ("email", [ ("sender_email", "monitor@example.org");
                  ("sender_password", "secret");
                  ("recipient_emails", "ops@example.org, ,dev@example.org") ]);
      ("slack", [ ("webhook_url", "https://hooks.slack.com/services/T0/B0/x");
                  ("channel", "#ops") ]) ].

(** A configuration whose keywords are blank. *)
Definition blank_keywords : ConfigManager.t :=
  ConfigManager.mk [ ("general", [ ("error_keywords", " , ") ]) ].

(** The conversion of the few numbers the examples use. *)
Definition int_of (s : string) : option Z :=
  if String.eqb s "60" then Some 60%Z
  else if String.eqb s "587" then Some 587%Z
  else None.

Definition resolve (p : string) : string := ("/srv/monitor/" ++ p)%string.

Definition smtp (attrs : NotifierSetup.email_attributes) (info : error_info)
  : completion := Returned.

Definition webhook (settings : ConfigManager.slack_settings)
    (info : error_info) : completion := Returned.

(** A watcher without callback. *)
Definition silent_watcher : LogFileHandler.t :=
  LogFileHandler.init Re.search_keyword Scenario.log_path ["ERROR"] None
    (LogFileHandler.holding "" Scenario.clocks0).

End Scenario2.

(* ================================================================== *)
(** * Properties *)
(* ================================================================== *)

(** ** The rate limiter *)

Module RateLimiterFacts.

Import RateLimiter.
Local Open Scope Z_scope.

Lemma granted_step now self :
  elapsed self now = true ->
  should_send_notification now self =
    (true, mk (min_interval self) now).
Proof.
  unfold elapsed, should_send_notification. intros ->. reflexivity.
Qed.

Lemma denied_step now self :
  elapsed self now = false ->
  should_send_notification now self = (false, self).
Proof.
  unfold elapsed, should_send_notification. intros ->. reflexivity.
Qed.

(** Once a call of the window has been granted at [tg], the other calls of
    the window are all denied and leave the limiter as it is. *)
Lemma calls_all_denied S tg times :
  (forall b, In b times -> b - tg < S) ->
  calls times (mk S tg) = (repeat false (List.length times), mk S tg).
Proof.
  induction times as [|now rest IH]; intros Hw; [reflexivity|].
  cbn [calls List.length repeat].
  rewrite denied_step.
  - rewrite IH; [reflexivity|]. intros b Hb. apply Hw. now right.
  - unfold elapsed; cbn. apply Z.leb_gt. apply Hw. now left.
Qed.

Lemma grants_repeat_false n : grants (repeat false n) = 0%nat.
Proof.
  unfold grants. induction n as [|n IH]; [reflexivity|].
  cbn. destruct (bool_dec false true); [discriminate|exact IH].
Qed.

Lemma within_window_tail S a times :
  within_window S (a :: times) -> within_window S times.
Proof. intros H x y Hx Hy. apply H; now right. Qed.

(** The run of a window, in full: nothing happens until the first call
    that finds the interval elapsed; that call is granted and every later
    one is denied. *)
Lemma calls_in_window S last times :
  within_window S times ->
  grants (fst (calls times (mk S last))) =
    (if existsb (elapsed (mk S last)) times then 1%nat else 0%nat)
  /\ snd (calls times (mk S last)) =
       match find (elapsed (mk S last)) times with
       | Some tg => mk S tg
       | None => mk S last
       end.
Proof.
  induction times as [|now rest IH]; intros Hw.
  - cbn. split; reflexivity.
  - cbn [calls find existsb].
    destruct (elapsed (mk S last) now) eqn:He.
    + rewrite (granted_step _ _ He). cbn [min_interval].
      rewrite calls_all_denied.
      2:{ intros b Hb. apply Hw; [now left|now right]. }
      cbn [fst snd orb]. split; [|reflexivity].
      unfold grants. cbn. fold (grants (repeat false (List.length rest))).
      now rewrite grants_repeat_false.
    + rewrite (denied_step _ _ He).
      destruct (IH (within_window_tail _ _ _ Hw)) as (E2 & E3).
      destruct (calls rest (mk S last)) as [rs st] eqn:Ec.
      cbn [fst snd orb] in *. split; [|exact E3].
      unfold grants in *. cbn.
      destruct (bool_dec false true); [discriminate|exact E2].
Qed.

Lemma granted_iff now self :
  fst (should_send_notification now self) = elapsed self now.
Proof.
  unfold should_send_notification, elapsed.
  now destruct (min_interval self <=? now - last_notification_time self).
Qed.

End RateLimiterFacts.

(** C1, as the specification states it, fails: calls made in a window
    shorter than the interval are all denied when a notification was sent
    shortly before the window.  A fresh limiter of interval 10 grants the
    call at time 100; the calls at 105 and 106 that follow are within a
    window shorter than 10, and none of them is granted. *)
Lemma C1_window_without_grant :
  snd (RateLimiter.should_send_notification 100 (RateLimiter.init 10))
    = RateLimiter.mk 10 100
  /\ ~ (forall (S last : Z) (times : list Z),
          times <> [] ->
          RateLimiter.within_window S times ->
          RateLimiter.grants
            (fst (RateLimiter.calls times (RateLimiter.mk S last))) = 1).
Proof.
  split; [reflexivity|].
  intros H.
  specialize (H 10%Z 100%Z [105%Z; 106%Z]).
  assert (W : RateLimiter.within_window 10 [105%Z; 106%Z]).
  { intros a b [<-|[<-|[]]] [<-|[<-|[]]]; lia. }
  specialize (H ltac:(discriminate) W).
  vm_compute in H. discriminate.
Qed.

(** C1 (amended): with interval [S], among calls whose clock readings lie
    in a window shorter than [S] at most one is granted, and exactly one as
    soon as one of them (the first, for instance) comes at least [S] after
    the time of the last notification; the limiter then holds the time of
    the granted call, and a further call at least [S] after it is granted
    again.  A granted call sets the time of the last notification to the
    current time; a denied call returns false and leaves the limiter
    unchanged. *)
Theorem C1_rate_limit_window (S last : Z) (times : list Z) :
  RateLimiter.within_window S times ->
  let self := RateLimiter.mk S last in
  let result := RateLimiter.calls times self in
  RateLimiter.grants (fst result)
    = (if existsb (RateLimiter.elapsed self) times then 1 else 0)
  /\ (forall first rest,
        times = first :: rest -> (S <= first - last)%Z ->
        RateLimiter.grants (fst result) = 1)
  /\ (forall tg,
        find (RateLimiter.elapsed self) times = Some tg ->
        snd result = RateLimiter.mk S tg
        /\ forall later, (S <= later - tg)%Z ->
             RateLimiter.should_send_notification later (snd result)
               = (true, RateLimiter.mk S later))
  /\ (forall now st,
        fst (RateLimiter.should_send_notification now st) = true ->
        snd (RateLimiter.should_send_notification now st)
          = RateLimiter.mk (RateLimiter.min_interval st) now)
  /\ (forall now st,
        fst (RateLimiter.should_send_notification now st) = false ->
        snd (RateLimiter.should_send_notification now st) = st).
Proof.
  intros Hw self result.
  destruct (RateLimiterFacts.calls_in_window S last times Hw) as [Hg Hs].
  fold self in Hg, Hs. fold result in Hg, Hs.
  split; [exact Hg|].
  split.
  { intros first rest -> Hfirst. rewrite Hg. cbn [existsb].
    replace (RateLimiter.elapsed self first) with true; [reflexivity|].
    symmetry. unfold RateLimiter.elapsed, self; cbn. now apply Z.leb_le. }
  split.
  { intros tg Hfind. rewrite Hs, Hfind. split; [reflexivity|].
    intros later Hlater.
    apply RateLimiterFacts.granted_step.
    unfold RateLimiter.elapsed; cbn. now apply Z.leb_le. }
  split; intros now st H; rewrite RateLimiterFacts.granted_iff in H.
  - now rewrite (RateLimiterFacts.granted_step _ _ H).
  - now rewrite (RateLimiterFacts.denied_step _ _ H).
Qed.

(** Three calls within three seconds on a fresh limiter of interval 10:
    one grant. *)
Lemma C1_rate_limit_window_witness :
  RateLimiter.within_window 10 [100%Z; 102%Z; 103%Z]
  /\ RateLimiter.grants
       (fst (RateLimiter.calls [100%Z; 102%Z; 103%Z] (RateLimiter.init 10)))
     = 1.
Proof.
  assert (W : RateLimiter.within_window 10 [100%Z; 102%Z; 103%Z]).
  { intros a b [<-|[<-|[<-|[]]]] [<-|[<-|[<-|[]]]]; lia. }
  split; [exact W|].
  exact (proj1 (C1_rate_limit_window 10 0 [100%Z; 102%Z; 103%Z] W)).
Defined.

(** ** The notification manager *)

Module NotificationFacts.

Import NotificationManager.
Local Open Scope Z_scope.

(** When the limiter grants, [send_all_alerts] is the grant followed by
    the two channels, one after the other. *)
Lemma send_all_alerts_granted now self info :
  RateLimiter.elapsed (rate_limiter self) now = true ->
  let self1 :=
    mk (RateLimiter.mk (RateLimiter.min_interval (rate_limiter self)) now)
       (email_notifier self) (slack_notifier self) in
  send_all_alerts now self info =
    ({| email_sent := fst (send_email_alert self1 info);
        slack_sent := fst (send_slack_alert self1 info);
        any_sent := fst (send_email_alert self1 info)
                    || fst (send_slack_alert self1 info) |},
     self1,
     Granted now :: snd (send_email_alert self1 info)
                 ++ snd (send_slack_alert self1 info)).
Proof.
  intros He self1. unfold send_all_alerts, should_send_notification.
  rewrite (RateLimiterFacts.granted_step _ _ He). cbn [negb].
  fold self1.
  destruct (send_email_alert self1 info) as [email acts1].
  destruct (send_slack_alert self1 info) as [slack acts2].
  reflexivity.
Qed.

(** When the limiter refuses, nothing else happens. *)
Lemma send_all_alerts_denied now self info :
  RateLimiter.elapsed (rate_limiter self) now = false ->
  send_all_alerts now self info =
    ({| email_sent := false; slack_sent := false; any_sent := false |},
     mk (rate_limiter self) (email_notifier self) (slack_notifier self),
     [Denied now]).
Proof.
  intros He. unfold send_all_alerts, should_send_notification.
  rewrite (RateLimiterFacts.denied_step _ _ He). reflexivity.
Qed.

Lemma mk_eta self :
  mk (rate_limiter self) (email_notifier self) (slack_notifier self) = self.
Proof. now destruct self. Qed.

End NotificationFacts.

(** C7: when the rate limiter grants, [send_all_alerts] attempts every
    configured channel, whatever the other channel does (a failing
    delivery is turned into [False] by [send_alert], it does not raise);
    the result holds one boolean per channel, and [any_sent] is their
    disjunction.  With two channels of which one always fails and the
    other succeeds, the other is attempted and [any_sent] is true. *)
Theorem C7_partial_sink_failure_isolation
    (now : Z) (self : NotificationManager.t) (info : error_info) :
  RateLimiter.elapsed (NotificationManager.rate_limiter self) now = true ->
  let r := NotificationManager.send_all_alerts now self info in
  let res := fst (fst r) in
  let acts := snd r in
  NotificationManager.attempts acts = NotificationManager.configured self
  /\ NotificationManager.email_sent res
       = match NotificationManager.email_notifier self with
         | Some n => NotificationManager.email_send_alert n info
         | None => false
         end
  /\ NotificationManager.slack_sent res
       = match NotificationManager.slack_notifier self with
         | Some n => NotificationManager.slack_send_alert n info
         | None => false
         end
  /\ NotificationManager.email_sent res
       = NotificationManager.sent_on NotificationManager.Email acts
  /\ NotificationManager.slack_sent res
       = NotificationManager.sent_on NotificationManager.Slack acts
  /\ NotificationManager.any_sent res
       = NotificationManager.email_sent res
         || NotificationManager.slack_sent res
  /\ (forall e s,
        NotificationManager.email_notifier self = Some e ->
        NotificationManager.slack_notifier self = Some s ->
        (NotificationManager.smtp_deliver e info = Raised /\
         NotificationManager.webhook_deliver s info = Returned
         -> In (NotificationManager.Attempted NotificationManager.Email false)
               acts
            /\ In (NotificationManager.Attempted NotificationManager.Slack true)
                  acts
            /\ NotificationManager.any_sent res = true)
        /\
        (NotificationManager.smtp_deliver e info = Returned /\
         NotificationManager.webhook_deliver s info = Raised
         -> In (NotificationManager.Attempted NotificationManager.Email true)
               acts
            /\ In (NotificationManager.Attempted NotificationManager.Slack false)
                  acts
            /\ NotificationManager.any_sent res = true)).
Proof.
  intros He r res acts. subst res acts r.
  rewrite (NotificationFacts.send_all_alerts_granted _ _ _ He).
  unfold NotificationManager.send_email_alert,
    NotificationManager.send_slack_alert,
    NotificationManager.configured,
    NotificationManager.email_send_alert,
    NotificationManager.slack_send_alert.
  cbn [fst snd NotificationManager.email_notifier
       NotificationManager.slack_notifier
       NotificationManager.email_sent NotificationManager.slack_sent
       NotificationManager.any_sent].
  destruct (NotificationManager.email_notifier self) as [e|];
  destruct (NotificationManager.slack_notifier self) as [s|];
  cbn [fst snd];
  repeat match goal with
         | |- context [NotificationManager.smtp_deliver ?x ?y] =>
             destruct (NotificationManager.smtp_deliver x y) eqn:?
         | |- context [NotificationManager.webhook_deliver ?x ?y] =>
             destruct (NotificationManager.webhook_deliver x y) eqn:?
         end;
  repeat split; try reflexivity; try discriminate;
  intros; repeat match goal with
                 | H : _ /\ _ |- _ => destruct H
                 | H : Some _ = Some _ |- _ => inversion H; subst; clear H
                 end;
  try congruence; cbn; auto.
Qed.

(** E-mail always failing, the webhook working, first alert of a manager
    with a five-minute interval: the webhook is attempted and [any_sent] is
    true. *)
Lemma C7_partial_sink_failure_isolation_witness :
  RateLimiter.elapsed
    (NotificationManager.rate_limiter
       (Scenario.manager (Some Scenario.failing_email)
                         (Some Scenario.working_slack)))
    1700000000 = true
  /\ NotificationManager.any_sent
       (fst (fst (NotificationManager.send_all_alerts 1700000000
                    (Scenario.manager (Some Scenario.failing_email)
                                      (Some Scenario.working_slack))
                    Scenario.db_record))) = true.
Proof.
  split; [reflexivity|].
  refine (proj2 (proj2 (proj1
    (proj2 (proj2 (proj2 (proj2 (proj2 (proj2
      (C7_partial_sink_failure_isolation 1700000000
         (Scenario.manager (Some Scenario.failing_email)
                           (Some Scenario.working_slack))
         Scenario.db_record _))))))
       Scenario.failing_email Scenario.working_slack _ _) _))).
  - reflexivity.
  - reflexivity.
  - reflexivity.
  - split; reflexivity.
Defined.

(** C10: when the interval has elapsed, [send_all_alerts] sets the time of
    the last notification to the current time before any channel is tried,
    and never takes it back: the limiter holds the current time afterwards
    whether the channels succeed, all fail, or none is configured.  A later
    call within the interval is then refused: it tries no channel and
    returns all false. *)
Theorem C10_permit_consumed_regardless_of_delivery
    (now : Z) (self : NotificationManager.t) (info : error_info) :
  RateLimiter.elapsed (NotificationManager.rate_limiter self) now = true ->
  let r := NotificationManager.send_all_alerts now self info in
  let res := fst (fst r) in
  let self1 := snd (fst r) in
  let acts := snd r in
  RateLimiter.last_notification_time
    (NotificationManager.rate_limiter self1) = now
  /\ RateLimiter.min_interval (NotificationManager.rate_limiter self1)
     = RateLimiter.min_interval (NotificationManager.rate_limiter self)
  /\ (exists rest,
        acts = NotificationManager.Granted now :: rest
        /\ Forall (fun a => match a with
                            | NotificationManager.Attempted _ _
                            | NotificationManager.Skipped _ => True
                            | _ => False
                            end) rest)
  /\ (NotificationManager.email_notifier self = None ->
      NotificationManager.slack_notifier self = None ->
      NotificationManager.any_sent res = false
      /\ NotificationManager.attempts acts = [])
  /\ (forall later info',
        (later - now
           < RateLimiter.min_interval (NotificationManager.rate_limiter self))%Z ->
        NotificationManager.send_all_alerts later self1 info'
        = ({| NotificationManager.email_sent := false;
              NotificationManager.slack_sent := false;
              NotificationManager.any_sent := false |},
           self1, [NotificationManager.Denied later])).
Proof.
  intros He r res self1 acts. subst res self1 acts r.
  rewrite (NotificationFacts.send_all_alerts_granted _ _ _ He).
  cbn [fst snd NotificationManager.rate_limiter
       RateLimiter.last_notification_time RateLimiter.min_interval].
  split; [reflexivity|]. split; [reflexivity|].
  split.
  { eexists; split; [reflexivity|].
    apply Forall_app; split;
      unfold NotificationManager.send_email_alert,
        NotificationManager.send_slack_alert;
      cbn [NotificationManager.email_notifier
           NotificationManager.slack_notifier];
      [destruct (NotificationManager.email_notifier self)
      |destruct (NotificationManager.slack_notifier self)];
      cbn; repeat constructor. }
  split.
  { intros E1 E2.
    unfold NotificationManager.send_email_alert,
      NotificationManager.send_slack_alert.
    cbn [NotificationManager.email_notifier
         NotificationManager.slack_notifier
         NotificationManager.any_sent].
    rewrite E1, E2. split; reflexivity. }
  intros later info' Hlater.
  rewrite NotificationFacts.send_all_alerts_denied; [reflexivity|].
  unfold RateLimiter.elapsed.
  cbn [NotificationManager.rate_limiter RateLimiter.min_interval
       RateLimiter.last_notification_time].
  now apply Z.leb_gt.
Qed.

(** Both channels failing: the alert of time 1700000000 consumes the
    permit, and the alert one minute later is refused. *)
Lemma C10_permit_consumed_regardless_of_delivery_witness :
  RateLimiter.elapsed
    (NotificationManager.rate_limiter
       (Scenario.manager (Some Scenario.failing_email)
                         (Some Scenario.failing_slack)))
    1700000000 = true
  /\ RateLimiter.last_notification_time
       (NotificationManager.rate_limiter
          (snd (fst (NotificationManager.send_all_alerts 1700000000
                       (Scenario.manager (Some Scenario.failing_email)
                                         (Some Scenario.failing_slack))
                       Scenario.db_record)))) = 1700000000%Z.
Proof.
  split; [reflexivity|].
  refine (proj1
    (C10_permit_consumed_regardless_of_delivery 1700000000
       (Scenario.manager (Some Scenario.failing_email)
                         (Some Scenario.failing_slack))
       Scenario.db_record _)).
  reflexivity.
Defined.

(** ** Text and patterns *)

Module PyStrFacts.

Import PyStr.

Lemma truthy_rstrip_by p c s :
  p c = false -> truthy (rstrip_by p (String c s)) = true.
Proof.
  intros Hc. cbn [rstrip_by]. rewrite Hc.
  now destruct (rstrip_by p s).
Qed.

(** A strip leaves something exactly when some character is to be kept. *)
Lemma truthy_strip_by p s : truthy (strip_by p s) = negb (all p s).
Proof.
  unfold strip_by. induction s as [|c s IH]; [reflexivity|].
  cbn [lstrip_by all]. destruct (p c) eqn:Hc; cbn [andb].
  - exact IH.
  - now rewrite truthy_rstrip_by.
Qed.

Lemma substring_all s : substring 0 (String.length s) s = s.
Proof. induction s as [|c s IH]; cbn; [reflexivity|now rewrite IH]. Qed.


Lemma length_append a b :
  String.length (a ++ b) = String.length a + String.length b.
Proof. induction a as [|c a IH]; cbn; [reflexivity|now rewrite IH]. Qed.




End PyStrFacts.

Module ReFacts.

Import PyStr Re.

(** The text a sequence of atoms matches has, from its start, the shape of
    any prefix of the sequence. *)
Lemma match_here_prefix p1 p2 s m :
  match_here (p1 ++ p2) s = Some m ->
  match_here p1 (substring 0 (List.length p1) m)
    = Some (substring 0 (List.length p1) m).
Proof.
  revert s m. induction p1 as [|a p1 IH]; intros s m H.
  - now destruct m.
  - cbn [app match_here] in H.
    destruct s as [|c s]; [discriminate|].
    destruct (atom_matches a c) eqn:Ha; [|discriminate].
    destruct (match_here (p1 ++ p2) s) as [m'|] eqn:Hm; [|discriminate].
    cbn in H. injection H as <-.
    cbn [List.length substring match_here]. rewrite Ha.
    now rewrite (IH _ _ Hm).
Qed.

Lemma search_match_here p s m :
  search p s = Some m -> exists s', match_here p s' = Some m.
Proof.
  induction s as [|c s IH]; cbn [search].
  - destruct (match_here p "") eqn:E; [|discriminate].
    intros [= <-]. now exists "".
  - destruct (match_here p (String c s)) eqn:E.
    + intros [= <-]. now exists (String c s).
    + exact IH.
Qed.

End ReFacts.

(** ** The extractor and the handler *)

Module HandlerFacts.

Import PyStr Re LogFileHandler.

Lemma lines_of_app a b : lines_of (a ++ b) = lines_of a ++ lines_of b.
Proof.
  induction a as [|x a IH]; [reflexivity|].
  destruct x; cbn; now rewrite IH.
Qed.

Lemma alerts_of_app a b : alerts_of (a ++ b) = alerts_of a ++ alerts_of b.
Proof.
  induction a as [|x a IH]; [reflexivity|].
  destruct x; cbn; now rewrite IH.
Qed.

Lemma reads_of_app a b : reads_of (a ++ b) = reads_of a ++ reads_of b.
Proof.
  induction a as [|x a IH]; [reflexivity|].
  destruct x; cbn; now rewrite IH.
Qed.

Lemma in_alerts_of e acts : In e (alerts_of acts) <-> In (Alert e) acts.
Proof.
  induction acts as [|x acts IH]; [reflexivity|].
  destruct x; cbn; rewrite IH; split; intros H;
    try (now right); try (destruct H as [H|H]; [discriminate|exact H]).
  - destruct H as [->|H]; [now left|now right].
  - destruct H as [[= ->]|H]; [now left|now right].
Qed.

(** *** The timestamp of a record *)

Lemma find_timestamp_shaped l g :
  find_timestamp timestamp_patterns l = Some g -> datetime_shaped g.
Proof.
  unfold timestamp_patterns, datetime_shaped.
  cbn [find_timestamp]. unfold search_group1. cbn [atoms group_start group_len].
  destruct (search datetime_atoms l) as [m|] eqn:E1; cbn [option_map].
  - intros [= <-].
    destruct (ReFacts.search_match_here _ _ _ E1) as [s' Hs'].
    rewrite <- (app_nil_r datetime_atoms) in Hs'.
    exact (ReFacts.match_here_prefix datetime_atoms [] s' m Hs').
  - destruct (search (Lit "[" :: datetime_atoms ++ [Lit "]"]) l)
      as [m|] eqn:E2; cbn [option_map]; [|discriminate].
    intros [= <-].
    destruct (ReFacts.search_match_here _ _ _ E2) as [s' Hs'].
    cbn [match_here] in Hs'.
    destruct s' as [|c s']; [discriminate|].
    destruct (atom_matches (Lit "[") c); [|discriminate].
    destruct (match_here (datetime_atoms ++ [Lit "]"]) s') as [m'|] eqn:Hm;
      [|discriminate].
    cbn in Hs'. injection Hs' as <-.
    change (substring 1 19 (String c m')) with (substring 0 19 m').
    exact (ReFacts.match_here_prefix datetime_atoms [Lit "]"] s' m' Hm).
Qed.

Lemma extract_timestamp l kw now :
  datetime_shaped (timestamp (_extract_error_info l kw now))
  \/ timestamp (_extract_error_info l kw now) = now_strftime now.
Proof.
  unfold _extract_error_info; cbn [timestamp].
  destruct (find_timestamp timestamp_patterns l) as [g|] eqn:E;
    [|now right].
  destruct (truthy g); [|now right].
  left. exact (find_timestamp_shaped _ _ E).
Qed.

Lemma extract_line l kw now :
  line (_extract_error_info l kw now) = strip l.
Proof. reflexivity. Qed.

Lemma extract_matched_keyword l kw now :
  matched_keyword (_extract_error_info l kw now) = kw.
Proof. reflexivity. Qed.

(** *** One line *)

(** The loop over the patterns ends in one of two ways: without a call of
    the callback, or with exactly one, for the record of the line. *)
Lemma scan_patterns_cases z cb l now :
  scan_patterns z cb l now = ([], Returned)
  \/ exists k f,
       In k (map snd z) /\ cb = Some f
       /\ scan_patterns z cb l now
          = ([Alert (_extract_error_info l k now)],
             f (_extract_error_info l k now)).
Proof.
  induction z as [|[pattern keyword] z IH]; cbn [scan_patterns].
  - now left.
  - destruct (pattern l).
    + destruct cb as [f|]; [|now left].
      right. exists keyword, f. cbn. auto.
    + destruct IH as [IH|(k & f & Hk & Hcb & IH)]; [now left|].
      right. exists k, f. cbn. auto.
Qed.

(** For a handler built by [init], the keyword reported is the first one
    of the configured list whose pattern matches. *)
Lemma scan_patterns_compiled compile kws cb l now :
  scan_patterns (combine (map compile kws) kws) cb l now
  = match find (fun k => compile k l) kws, cb with
    | Some k, Some f =>
        ([Alert (_extract_error_info l k now)],
         f (_extract_error_info l k now))
    | _, _ => ([], Returned)
    end.
Proof.
  induction kws as [|k kws IH]; cbn [map combine scan_patterns find].
  - reflexivity.
  - destruct (compile k l); [|exact IH].
    now destruct cb.
Qed.

Lemma find_first_match {A} (f : A -> bool) before k after :
  Forall (fun x => f x = false) before -> f k = true ->
  find f (before ++ k :: after) = Some k.
Proof.
  intros Hb Hk. induction Hb as [|x before Hx _ IH]; cbn.
  - now rewrite Hk.
  - now rewrite Hx.
Qed.

(** *** A batch of lines *)

Lemma process_lines_spec self lines clk i acts c :
  process_lines self lines clk i = (acts, c) ->
  reads_of acts = []
  /\ ~ In Caught acts
  /\ (forall e, In (Alert e) acts ->
        exists l k j, In l (lines_of acts)
                      /\ e = _extract_error_info l k (clk j))
  /\ exists skipped,
       filter nonblank lines = lines_of acts ++ skipped
       /\ match c with
          | Returned =>
              skipped = []
              /\ forall e f, In (Alert e) acts -> callback self = Some f ->
                             f e = Returned
          | Raised =>
              exists done l k j f,
                lines_of acts = done ++ [l]
                /\ callback self = Some f
                /\ f (_extract_error_info l k (clk j)) = Raised
                /\ exists before,
                     alerts_of acts
                     = before ++ [_extract_error_info l k (clk j)]
          end.
Proof.
  revert i acts c. induction lines as [|l lines IH]; intros i acts c.
  - cbn. intros [= <- <-]. repeat split; auto.
    + intros e [].
    + exists []. repeat split. intros e f [].
  - cbn [process_lines filter]. unfold nonblank at 1.
    destruct (truthy (strip l)) eqn:Hl; [|apply IH].
    unfold _process_log_line.
    destruct (scan_patterns_cases
                (combine (error_patterns self) (error_keywords self))
                (callback self) l (clk i))
      as [E|(k & f & Hk & Hcb & E)]; rewrite E; clear E.
    + destruct (process_lines self lines clk (S i)) as [more c'] eqn:Hm.
      intros [= <- <-].
      destruct (IH _ _ _ Hm) as (R & NC & AL & skipped & F & Hc).
      cbn [app reads_of lines_of alerts_of].
      split; [exact R|]. split; [intros [H|H]; [discriminate|auto]|].
      split.
      { intros e [H|H]; [discriminate|].
        destruct (AL e H) as (l' & k' & j & Hin & ->).
        exists l', k', j. split; [now right|reflexivity]. }
      exists skipped. split; [now rewrite F|].
      destruct c'.
      * destruct Hc as [-> Hret]. split; [reflexivity|].
        intros e f [H|H]; [discriminate|]. now apply Hret.
      * destruct Hc as (done & l' & k' & j & f & L & Hcb & Hf & before & A).
        exists (l :: done), l', k', j, f. rewrite L.
        repeat split; auto. now exists before.
    + destruct (f (_extract_error_info l k (clk i))) eqn:Hf.
      * destruct (process_lines self lines clk (S i)) as [more c'] eqn:Hm.
        intros [= <- <-].
        destruct (IH _ _ _ Hm) as (R & NC & AL & skipped & F & Hc).
        cbn [app reads_of lines_of alerts_of].
        split; [exact R|].
        split; [intros [H|[H|H]]; [discriminate|discriminate|auto]|].
        split.
        { intros e [H|[H|H]]; [discriminate| |].
          - injection H as <-. exists l, k, i. split; [now left|reflexivity].
          - destruct (AL e H) as (l' & k' & j & Hin & ->).
            exists l', k', j. split; [now right|reflexivity]. }
        exists skipped. split; [now rewrite F|].
        destruct c'.
        -- destruct Hc as [-> Hret]. split; [reflexivity|].
           intros e f' [H|[H|H]] Hcb'; [discriminate| |now apply Hret].
           injection H as <-. congruence.
        -- destruct Hc as (done & l' & k' & j & f' & L & Hcb' & Hf' & before & A).
           exists (l :: done), l', k', j, f'. rewrite L.
           repeat split; auto.
           exists (_extract_error_info l k (clk i) :: before). now rewrite A.
      * intros [= <- <-].
        cbn [app reads_of lines_of alerts_of].
        split; [reflexivity|].
        split; [intros [H|[H|[]]]; discriminate|].
        split.
        { intros e [H|[H|[]]]; [discriminate|].
          injection H as <-. exists l, k, i. split; [now left|reflexivity]. }
        exists (filter nonblank lines). split; [reflexivity|].
        exists [], l, k, i, f. repeat split; auto. now exists [].
Qed.

End HandlerFacts.

Module TailerFacts.

Import PyStr Re LogFileHandler.

(** *** One change event *)

Lemma on_modified_reading self event w size :
  is_directory event = false ->
  src_path event = log_file_path self ->
  getsize w = Some size ->
  last_position (reset_if_truncated size self) < size ->
  on_modified self event w
  = _read_new_content (reset_if_truncated size self) size w.
Proof.
  intros Hd Hp Hs Hlt. unfold on_modified, _get_file_size.
  rewrite Hd, Hp, String.eqb_refl, Hs. cbn [negb orb].
  destruct (Nat.leb_spec size (last_position (reset_if_truncated size self)));
    [lia|reflexivity].
Qed.

Lemma on_modified_idle self event w size :
  is_directory event = false ->
  src_path event = log_file_path self ->
  getsize w = Some size ->
  size <= last_position (reset_if_truncated size self) ->
  on_modified self event w = (reset_if_truncated size self, []).
Proof.
  intros Hd Hp Hs Hle. unfold on_modified, _get_file_size.
  rewrite Hd, Hp, String.eqb_refl, Hs. cbn [negb orb].
  destruct (Nat.leb_spec size (last_position (reset_if_truncated size self)));
    [reflexivity|lia].
Qed.


Lemma reset_if_truncated_not_smaller size self :
  last_position self <= size -> reset_if_truncated size self = self.
Proof.
  intros H. unfold reset_if_truncated.
  destruct (Nat.ltb_spec size (last_position self)); [lia|reflexivity].
Qed.

(** What a read does, whatever the callback does: the position goes to
    [current_size], one read is made, and the lines handed over are the
    lines of the buffer up to the first one on which the callback raises. *)
Lemma read_new_content_spec self size w new_content :
  file_read w (last_position self) (size - last_position self)
    = Some new_content ->
  let r := _read_new_content self size w in
  fst r = set_last_position size self
  /\ reads_of (snd r) = [(last_position self, new_content)]
  /\ (forall e, In (Alert e) (snd r) ->
        exists l k j, In l (lines_of (snd r))
                      /\ e = _extract_error_info l k (clocks w j))
  /\ exists skipped,
       lines_in new_content = lines_of (snd r) ++ skipped
       /\ (~ In Caught (snd r) -> skipped = [])
       /\ ((forall e f, callback self = Some f -> f e = Returned) ->
           ~ In Caught (snd r))
       /\ (In Caught (snd r) ->
           exists done l k j f,
             lines_of (snd r) = done ++ [l]
             /\ callback self = Some f
             /\ f (_extract_error_info l k (clocks w j)) = Raised
             /\ exists before,
                  alerts_of (snd r)
                  = before ++ [_extract_error_info l k (clocks w j)]).
Proof.
  intros Ht r. subst r. unfold _read_new_content.
  rewrite Ht. unfold lines_in.
  destruct (truthy (strip new_content)) eqn:Hn.
  - destruct (process_lines (set_last_position size self)
                (split newline (strip new_content)) (clocks w) 0)
      as [acts c] eqn:Hp.
    destruct (HandlerFacts.process_lines_spec _ _ _ _ _ _ Hp)
      as (R & NC & AL & skipped & F & Hc).
    destruct c.
    + destruct Hc as [-> Hret]. cbn [fst snd reads_of lines_of].
      rewrite R. repeat split.
      * intros e [H|H]; [discriminate|]. exact (AL e H).
      * exists []. rewrite F. repeat split.
        -- intros _ [H|H]; [discriminate|auto].
        -- intros [H|H]; [discriminate|contradiction].
    + destruct Hc as (done & l & k & j & f & L & Hcb & Hf & before & A).
      cbn [fst snd reads_of lines_of].
      rewrite HandlerFacts.reads_of_app, HandlerFacts.lines_of_app, R.
      cbn [reads_of lines_of app]. rewrite app_nil_r. repeat split.
      * intros e [H|H]; [discriminate|].
        apply in_app_or in H. destruct H as [H|[H|[]]]; [|discriminate].
        exact (AL e H).
      * exists skipped. rewrite F. repeat split.
        -- intros H. exfalso. apply H. right. apply in_or_app. right. now left.
        -- intros Hret _. cbn [callback set_last_position] in Hcb.
           specialize (Hret (_extract_error_info l k (clocks w j)) f Hcb).
           congruence.
        -- intros _. exists done, l, k, j, f. repeat split; auto.
           exists before. cbn [alerts_of].
           rewrite HandlerFacts.alerts_of_app, A.
           cbn. now rewrite app_nil_r.
  - cbn [fst snd reads_of lines_of]. repeat split.
    + intros e [H|[]]. discriminate.
    + exists []. repeat split.
      * intros _ [H|[]]. discriminate.
      * intros [H|[]]. discriminate.
Qed.

End TailerFacts.

Module PipelineFacts.

Import PyStr Re LogFileHandler.

Lemma lines_in_nonblank new_content l :
  In l (lines_in new_content) -> nonblank l = true.
Proof.
  unfold lines_in. destruct (truthy (strip new_content)); [|intros []].
  intros H. now apply filter_In in H.
Qed.

(** Every record the callback receives during a change event comes from a
    line of the buffer that is not blank, with the clock of that line. *)
Lemma on_modified_alerts self event w e :
  In (Alert e) (snd (on_modified self event w)) ->
  exists l k j, nonblank l = true /\ e = _extract_error_info l k (clocks w j).
Proof.
  unfold on_modified.
  destruct (is_directory event
            || negb (src_path event =? log_file_path self)%string);
    [intros []|].
  set (size := _get_file_size w).
  set (self1 := reset_if_truncated size self).
  destruct (size <=? last_position self1); [intros []|].
  destruct (file_read w (last_position self1) (size - last_position self1))
    as [new_content|] eqn:Ht.
  - destruct (TailerFacts.read_new_content_spec self1 size w new_content Ht)
      as (_ & _ & AL & skipped & F & _).
    intros H. destruct (AL e H) as (l & k & j & Hin & ->).
    exists l, k, j. split; [|reflexivity].
    apply (lines_in_nonblank new_content).
    rewrite F. apply in_or_app. now left.
  - unfold _read_new_content. rewrite Ht. intros [H|[]]. discriminate.
Qed.

End PipelineFacts.

(** ** The claims on the extractor and the classification *)

(** C4, as the specification states it, fails: the timestamp pattern asks
    for digits, not for a date, so the timestamp of the record can be a
    text such as [2024-13-45 25:61:61], which is neither a date-time of the
    calendar nor the current time; and the raw line of the record of a
    blank line is empty. *)
Lemma C4_timestamp_need_not_be_a_date :
  ~ (forall (l kw : string) (now : LogFileHandler.clock),
       let r := LogFileHandler._extract_error_info l kw now in
       (Calendar.is_calendar_datetime (timestamp r) = true
        \/ timestamp r = LogFileHandler.now_strftime now)
       /\ line r <> "").
Proof.
  intros H.
  destruct (H Scenario.odd_date_line "ERROR" Scenario.clock0) as [[E|E] _];
    vm_compute in E; discriminate.
Qed.

(** C4 (amended): the timestamp of the record the extractor returns is
    either a text of the form [DDDD-DD-DD DD:DD:DD], [D] a decimal digit
    (it need not name a date of the calendar), or the current time; its
    raw line is the line without the surrounding whitespace, which is
    non-empty exactly when the line is not blank.  Every record the watcher
    hands to the callback comes from a line that is not blank, so its raw
    line is non-empty. *)
Theorem C4_record_timestamp_and_raw_line :
  (forall (l kw : string) (now : LogFileHandler.clock),
     let r := LogFileHandler._extract_error_info l kw now in
     (LogFileHandler.datetime_shaped (timestamp r)
      \/ timestamp r = LogFileHandler.now_strftime now)
     /\ line r = PyStr.strip l
     /\ PyStr.truthy (line r) = negb (PyStr.all PyStr.isspace l))
  /\ (forall self event w e,
        In (LogFileHandler.Alert e)
           (snd (LogFileHandler.on_modified self event w)) ->
        PyStr.truthy (line e) = true
        /\ (LogFileHandler.datetime_shaped (timestamp e)
            \/ exists j,
                 timestamp e
                 = LogFileHandler.now_strftime (LogFileHandler.clocks w j))).
Proof.
  split.
  - intros l kw now r. subst r.
    split; [apply HandlerFacts.extract_timestamp|].
    split; [reflexivity|].
    rewrite HandlerFacts.extract_line. apply PyStrFacts.truthy_strip_by.
  - intros self event w e H.
    destruct (PipelineFacts.on_modified_alerts _ _ _ _ H)
      as (l & k & j & Hl & ->).
    split; [exact Hl|].
    destruct (HandlerFacts.extract_timestamp l k (LogFileHandler.clocks w j))
      as [Hs|Hs]; [now left|right; now exists j].
Qed.

(** The record of the second line of a batch of two, as the callback
    receives it. *)
Lemma C4_record_timestamp_and_raw_line_witness :
  In (LogFileHandler.Alert
        (LogFileHandler._extract_error_info "ERROR: net down" "ERROR"
           Scenario.clock0))
     (snd (LogFileHandler.on_modified
             (Scenario.watcher Scenario.quiet "")
             (LogFileHandler.modified Scenario.log_path)
             (LogFileHandler.holding Scenario.two_errors Scenario.clocks0)))
  /\ PyStr.truthy
       (line (LogFileHandler._extract_error_info "ERROR: net down" "ERROR"
                Scenario.clock0)) = true.
Proof.
  assert (H : In (LogFileHandler.Alert
        (LogFileHandler._extract_error_info "ERROR: net down" "ERROR"
           Scenario.clock0))
     (snd (LogFileHandler.on_modified
             (Scenario.watcher Scenario.quiet "")
             (LogFileHandler.modified Scenario.log_path)
             (LogFileHandler.holding Scenario.two_errors Scenario.clocks0)))).
  { vm_compute. right. right. right. right. left. reflexivity. }
  split; [exact H|].
  exact (proj1 (proj2 C4_record_timestamp_and_raw_line _ _ _ _ H)).
Defined.

(** C5: the patterns are tried in the order of the configured keywords and
    the record carries the first keyword whose pattern matches; the
    callback is called at most once for a line.  With the keywords ERROR
    and FAIL and a line in which both occur, the keyword of the record is
    ERROR. *)
Theorem C5_first_match_precedence :
  (forall compile path kws cb w l now,
     let self := LogFileHandler.init compile path kws cb w in
     let alerts :=
       LogFileHandler.alerts_of
         (fst (LogFileHandler._process_log_line self l now)) in
     alerts = match find (fun k => compile k l) kws, cb with
              | Some k, Some _ =>
                  [LogFileHandler._extract_error_info l k now]
              | _, _ => []
              end
     /\ forall before k after f,
          kws = before ++ k :: after ->
          Forall (fun k' => compile k' l = false) before ->
          compile k l = true ->
          cb = Some f ->
          map matched_keyword alerts = [k])
  /\ (forall self l now,
        List.length
          (LogFileHandler.alerts_of
             (fst (LogFileHandler._process_log_line self l now))) <= 1)
  /\ (forall path f w l now,
        Re.search_keyword "ERROR" l = true ->
        Re.search_keyword "FAIL" l = true ->
        map matched_keyword
            (LogFileHandler.alerts_of
               (fst (LogFileHandler._process_log_line
                       (LogFileHandler.init Re.search_keyword path
                          ["ERROR"; "FAIL"] (Some f) w) l now)))
        = ["ERROR"]).
Proof.
  assert (G : forall compile path kws cb w l now,
     LogFileHandler.alerts_of
       (fst (LogFileHandler._process_log_line
               (LogFileHandler.init compile path kws cb w) l now))
     = match find (fun k => compile k l) kws, cb with
       | Some k, Some _ => [LogFileHandler._extract_error_info l k now]
       | _, _ => []
       end).
  { intros. unfold LogFileHandler._process_log_line, LogFileHandler.init.
    cbn [LogFileHandler.error_patterns LogFileHandler.error_keywords
         LogFileHandler.callback].
    rewrite HandlerFacts.scan_patterns_compiled.
    destruct (find (fun k => compile k l) kws); [|reflexivity].
    now destruct cb. }
  split; [|split].
  - intros compile path kws cb w l now self alerts. subst alerts self.
    split; [apply G|].
    intros before k after f -> Hb Hk ->. rewrite G.
    now rewrite (HandlerFacts.find_first_match _ _ _ _ Hb Hk).
  - intros self l now. unfold LogFileHandler._process_log_line.
    destruct (HandlerFacts.scan_patterns_cases
                (combine (LogFileHandler.error_patterns self)
                         (LogFileHandler.error_keywords self))
                (LogFileHandler.callback self) l now)
      as [E|(k & f & _ & _ & E)]; rewrite E; cbn; lia.
  - intros path f w l now He _. rewrite G. cbn [find]. now rewrite He.
Qed.

(** A line in which FAIL comes before ERROR: the keyword reported is
    ERROR, the first one configured. *)
Lemma C5_first_match_precedence_witness :
  (Re.search_keyword "ERROR" Scenario.both_tokens_line = true
   /\ Re.search_keyword "FAIL" Scenario.both_tokens_line = true)
  /\ map matched_keyword
         (LogFileHandler.alerts_of
            (fst (LogFileHandler._process_log_line
                    (LogFileHandler.init Re.search_keyword Scenario.log_path
                       ["ERROR"; "FAIL"] (Some Scenario.quiet)
                       (LogFileHandler.holding "" Scenario.clocks0))
                    Scenario.both_tokens_line Scenario.clock0)))
     = ["ERROR"].
Proof.
  split; [split; reflexivity|].
  apply (proj2 (proj2 C5_first_match_precedence)); reflexivity.
Defined.

(** C6: for the line
    [2024-01-15 14:30:25 ERROR: Database connection failed] and the
    matched keyword ERROR the extractor returns the timestamp
    [2024-01-15 14:30:25], the level ERROR, the message
    [Database connection failed] and the matched keyword ERROR; a watcher
    configured with the keyword ERROR hands this record to the callback. *)
Theorem C6_extractor_scenario (now : LogFileHandler.clock) :
  let r :=
    LogFileHandler._extract_error_info
      "2024-01-15 14:30:25 ERROR: Database connection failed" "ERROR" now in
  timestamp r = "2024-01-15 14:30:25"
  /\ level r = "ERROR"
  /\ message r = "Database connection failed"
  /\ matched_keyword r = "ERROR"
  /\ forall path f w,
       LogFileHandler.alerts_of
         (fst (LogFileHandler._process_log_line
                 (LogFileHandler.init Re.search_keyword path ["ERROR"]
                    (Some f) w)
                 "2024-01-15 14:30:25 ERROR: Database connection failed"
                 now))
       = [r].
Proof.
  intros r. subst r.
  split; [reflexivity|]. split; [reflexivity|].
  split; [reflexivity|]. split; [reflexivity|].
  intros path f w. reflexivity.
Qed.

(** ** The claims on the tailer *)







Module GrowthFacts.

Import PyStr LogFileHandler.

Lemma set_last_position_path pos self :
  log_file_path (set_last_position pos self) = log_file_path self.
Proof. reflexivity. Qed.



(** *** Runs in which no event finds the file smaller *)

(** A size that cannot be read counts as 0: the position is reset and the
    call reads nothing, so the next change event reads the file from its
    start. *)
Lemma on_modified_size_unreadable self event w :
  is_directory event = false ->
  src_path event = log_file_path self ->
  getsize w = None ->
  on_modified self event w = (set_last_position 0 self, []).
Proof.
  intros Hd Hp Hs. unfold on_modified, _get_file_size.
  rewrite Hd, Hp, String.eqb_refl, Hs. cbn [negb orb].
  unfold reset_if_truncated.
  destruct (Nat.ltb_spec 0 (last_position self)) as [H|H]; [reflexivity|].
  cbn [Nat.leb]. destruct self as [p k c pos pats]. cbn in *.
  assert (pos = 0) as -> by lia. reflexivity.
Qed.




End GrowthFacts.




Module SplitFacts.

Import PyStr LogFileHandler.



Lemma split_nonempty sep s : exists piece rest, split sep s = piece :: rest.
Proof.
  induction s as [|c s (piece & rest & IH)]; cbn [split].
  - now exists "", [].
  - destruct (Ascii.eqb c sep); [now exists "", (split sep s)|].
    rewrite IH. now exists (String c piece), rest.
Qed.





(** *** Stripping *)



Lemma lstrip_rstrip p s :
  rstrip_by p (lstrip_by p s) = lstrip_by p (rstrip_by p s).
Proof.
  induction s as [|c s IH]; [reflexivity|].
  cbn [lstrip_by rstrip_by]. destruct (p c) eqn:Hc.
  - rewrite IH. destruct (rstrip_by p s); [reflexivity|].
    cbn [lstrip_by]. now rewrite Hc.
  - cbn [rstrip_by].
    destruct (rstrip_by p s); rewrite ?Hc; cbn [lstrip_by]; now rewrite Hc.
Qed.





(** *** The stripped lines of the pieces, with a text before them *)









Lemma prepend_empty pieces : pieces <> [] -> prepend "" pieces = pieces.
Proof. destruct pieces; [contradiction|reflexivity]. Qed.



End SplitFacts.




(* ================================================================== *)
(** * Further properties of the code *)
(* ================================================================== *)

(** ** The rate limiter over any sequence of calls *)

Module RateLimiterRunFacts.

Import RateLimiter RateLimiterRuns.
Local Open Scope Z_scope.

Lemma grant_times_cons now rest self :
  grant_times (now :: rest) self
  = if elapsed self now
    then now :: grant_times rest (mk (min_interval self) now)
    else grant_times rest self.
Proof.
  unfold grant_times. cbn [calls].
  destruct (elapsed self now) eqn:He.
  - rewrite (RateLimiterFacts.granted_step _ _ He).
    destruct (calls rest (mk (min_interval self) now)) as [rs st].
    reflexivity.
  - rewrite (RateLimiterFacts.denied_step _ _ He).
    destruct (calls rest self) as [rs st]. reflexivity.
Qed.

Lemma calls_cons now rest self :
  calls (now :: rest) self
  = if elapsed self now
    then (true :: fst (calls rest (mk (min_interval self) now)),
          snd (calls rest (mk (min_interval self) now)))
    else (false :: fst (calls rest self), snd (calls rest self)).
Proof.
  cbn [calls]. destruct (elapsed self now) eqn:He.
  - rewrite (RateLimiterFacts.granted_step _ _ He).
    now destruct (calls rest (mk (min_interval self) now)).
  - rewrite (RateLimiterFacts.denied_step _ _ He).
    now destruct (calls rest self).
Qed.

Lemma calls_keep_interval times self :
  min_interval (snd (calls times self)) = min_interval self.
Proof.
  revert self. induction times as [|now rest IH]; intros self;
    [reflexivity|].
  rewrite calls_cons. destruct (elapsed self now); cbn [snd];
    now rewrite IH.
Qed.

Lemma grant_times_length times self :
  List.length (grant_times times self) = grants (fst (calls times self)).
Proof.
  revert self. induction times as [|now rest IH]; intros self.
  - reflexivity.
  - rewrite grant_times_cons, calls_cons.
    destruct (elapsed self now); cbn [fst];
      unfold grants in *; cbn [count_occ List.length].
    + destruct (bool_dec true true); [|contradiction]. now rewrite IH.
    + destruct (bool_dec false true); [discriminate|]. apply IH.
Qed.

Lemma last_cons_default {A} (x : A) (l : list A) (d d' : A) :
  last (x :: l) d = last (x :: l) d'.
Proof.
  revert x. induction l as [|y l IH]; intros x; [reflexivity|].
  cbn [last] in *. apply IH.
Qed.

End RateLimiterRunFacts.

(** X1: whatever the clock readings of a sequence of calls, two calls
    granted one after the other are at least the interval apart, the first
    grant is at least the interval after the time the limiter started
    with, and the limiter ends holding the time of the last grant (its
    starting time if nothing was granted) and its interval. *)
Theorem X1_grants_are_spaced (times : list Z) (self : RateLimiter.t) :
  RateLimiterRuns.spaced (RateLimiter.min_interval self)
    (RateLimiter.last_notification_time self)
    (RateLimiterRuns.grant_times times self)
  /\ RateLimiter.last_notification_time
       (snd (RateLimiter.calls times self))
     = last (RateLimiterRuns.grant_times times self)
            (RateLimiter.last_notification_time self)
  /\ RateLimiter.min_interval (snd (RateLimiter.calls times self))
     = RateLimiter.min_interval self
  /\ List.length (RateLimiterRuns.grant_times times self)
     = RateLimiter.grants (fst (RateLimiter.calls times self)).
Proof.
  split; [|split; [|split]].
  - revert self. induction times as [|now rest IH]; intros self.
    + exact I.
    + rewrite RateLimiterRunFacts.grant_times_cons.
      destruct (RateLimiter.elapsed self now) eqn:He.
      * cbn [RateLimiterRuns.spaced]. split.
        -- unfold RateLimiter.elapsed in He. now apply Z.leb_le in He.
        -- exact (IH (RateLimiter.mk (RateLimiter.min_interval self) now)).
      * apply IH.
  - revert self. induction times as [|now rest IH]; intros self.
    + reflexivity.
    + rewrite RateLimiterRunFacts.grant_times_cons,
        RateLimiterRunFacts.calls_cons.
      destruct (RateLimiter.elapsed self now); cbn [snd]; rewrite IH.
      * cbn [RateLimiter.last_notification_time].
        destruct (RateLimiterRuns.grant_times rest
                    (RateLimiter.mk (RateLimiter.min_interval self) now))
          as [|g gs]; [reflexivity|].
        change (last (now :: g :: gs)
                     (RateLimiter.last_notification_time self))
          with (last (g :: gs) (RateLimiter.last_notification_time self)).
        apply RateLimiterRunFacts.last_cons_default.
      * reflexivity.
  - apply RateLimiterRunFacts.calls_keep_interval.
  - apply RateLimiterRunFacts.grant_times_length.
Qed.

(** X2: an interval of zero or less switches the limiter off: when the
    clock does not go back, starting from the time the limiter holds,
    every call is granted. *)
Theorem X2_no_interval_no_limit (times : list Z) (self : RateLimiter.t) :
  (RateLimiter.min_interval self <= 0)%Z ->
  RateLimiterRuns.nondecreasing
    (RateLimiter.last_notification_time self) times ->
  fst (RateLimiter.calls times self) = repeat true (List.length times).
Proof.
  revert self. induction times as [|now rest IH]; intros self HS Hmono.
  - reflexivity.
  - destruct Hmono as [H1 Hrest].
    rewrite RateLimiterRunFacts.calls_cons.
    replace (RateLimiter.elapsed self now) with true.
    + cbn [fst List.length repeat]. f_equal. now apply IH.
    + symmetry. unfold RateLimiter.elapsed. apply Z.leb_le. lia.
Qed.

(** Three calls in the same second with an interval of zero. *)
Lemma X2_no_interval_no_limit_witness :
  ((RateLimiter.min_interval (RateLimiter.init 0) <= 0)%Z
   /\ RateLimiterRuns.nondecreasing
        (RateLimiter.last_notification_time (RateLimiter.init 0))
        [5%Z; 5%Z; 6%Z])
  /\ fst (RateLimiter.calls [5%Z; 5%Z; 6%Z] (RateLimiter.init 0))
     = [true; true; true].
Proof.
  assert (H1 : (RateLimiter.min_interval (RateLimiter.init 0) <= 0)%Z)
    by (cbn; lia).
  assert (H2 : RateLimiterRuns.nondecreasing
                 (RateLimiter.last_notification_time (RateLimiter.init 0))
                 [5%Z; 5%Z; 6%Z])
    by (cbn; lia).
  split; [split; assumption|].
  exact (X2_no_interval_no_limit [5%Z; 5%Z; 6%Z] (RateLimiter.init 0) H1 H2).
Defined.

(** ** The monitor's callback and the test notification *)

Module MonitorFacts.

Import NotificationManager LogMonitorDemo.
Local Open Scope Z_scope.

Lemma handle_error_detected_granted now self info :
  RateLimiter.elapsed (rate_limiter self) now = true ->
  let self1 :=
    mk (RateLimiter.mk (RateLimiter.min_interval (rate_limiter self)) now)
       (email_notifier self) (slack_notifier self) in
  handle_error_detected now self info
  = (self1,
     Granted now :: snd (send_email_alert self1 info)
                 ++ snd (send_slack_alert self1 info)).
Proof.
  intros He self1. unfold handle_error_detected, should_send_notification.
  rewrite (RateLimiterFacts.granted_step _ _ He). fold self1.
  destruct (send_email_alert self1 info) as [email acts1].
  destruct (send_slack_alert self1 info) as [slack acts2].
  reflexivity.
Qed.

Lemma handle_error_detected_denied now self info :
  RateLimiter.elapsed (rate_limiter self) now = false ->
  handle_error_detected now self info
  = (mk (rate_limiter self) (email_notifier self) (slack_notifier self),
     [Denied now]).
Proof.
  intros He. unfold handle_error_detected, should_send_notification.
  now rewrite (RateLimiterFacts.denied_step _ _ He).
Qed.

(** The attempts of the two sends are the configured channels. *)
Lemma sends_attempt_configured limiter self info :
  attempts (snd (send_email_alert
                   (mk limiter (email_notifier self) (slack_notifier self))
                   info)
            ++ snd (send_slack_alert
                      (mk limiter (email_notifier self) (slack_notifier self))
                      info))
  = configured self.
Proof.
  unfold send_email_alert, send_slack_alert, configured.
  cbn [email_notifier slack_notifier].
  destruct (email_notifier self), (slack_notifier self); reflexivity.
Qed.

Lemma sends_grant_nothing limiter self info :
  grants_of (snd (send_email_alert
                    (mk limiter (email_notifier self) (slack_notifier self))
                    info)
             ++ snd (send_slack_alert
                       (mk limiter (email_notifier self) (slack_notifier self))
                       info))
  = [].
Proof.
  unfold send_email_alert, send_slack_alert.
  cbn [email_notifier slack_notifier].
  destruct (email_notifier self), (slack_notifier self); reflexivity.
Qed.

Lemma attempts_app a b : attempts (a ++ b) = attempts a ++ attempts b.
Proof.
  induction a as [|x a IH]; [reflexivity|].
  destruct x; cbn; now rewrite IH.
Qed.

Lemma grants_of_app a b : grants_of (a ++ b) = grants_of a ++ grants_of b.
Proof.
  induction a as [|x a IH]; [reflexivity|].
  destruct x; cbn; now rewrite IH.
Qed.

(** The callback over a sequence of records: the limiter goes through the
    calls of the clock readings, the channels stay, every grant is followed
    by one attempt on every configured channel, and nothing else is
    attempted. *)
Lemma handle_all_spec detections self :
  let r := handle_all detections self in
  rate_limiter (fst r)
  = snd (RateLimiter.calls (map fst detections) (rate_limiter self))
  /\ email_notifier (fst r) = email_notifier self
  /\ slack_notifier (fst r) = slack_notifier self
  /\ grants_of (snd r)
     = RateLimiterRuns.grant_times (map fst detections) (rate_limiter self)
  /\ attempts (snd r)
     = List.concat (map (fun _ => configured self) (grants_of (snd r))).
Proof.
  revert self. induction detections as [|[now info] rest IH]; intros self.
  - cbn. repeat split.
  - cbn [handle_all map fst].
    rewrite RateLimiterRunFacts.calls_cons,
      RateLimiterRunFacts.grant_times_cons.
    destruct (RateLimiter.elapsed (rate_limiter self) now) eqn:He.
    + rewrite (handle_error_detected_granted _ _ _ He).
      set (self1 := mk (RateLimiter.mk
                          (RateLimiter.min_interval (rate_limiter self)) now)
                       (email_notifier self) (slack_notifier self)).
      specialize (IH self1).
      destruct (handle_all rest self1) as [self2 more].
      cbn [fst snd] in IH |- *.
      destruct IH as (L & E & S & G & A).
      cbn [rate_limiter email_notifier slack_notifier self1] in L, E, S, G.
      split; [exact L|]. split; [exact E|]. split; [exact S|].
      cbn [app grants_of attempts].
      rewrite grants_of_app, attempts_app.
      unfold self1.
      rewrite (sends_grant_nothing _ self info).
      rewrite (sends_attempt_configured _ self info).
      cbn [app map List.concat]. split; [now rewrite G|].
      rewrite A. reflexivity.
    + rewrite (handle_error_detected_denied _ _ _ He).
      specialize (IH (mk (rate_limiter self) (email_notifier self)
                         (slack_notifier self))).
      destruct (handle_all rest
                  (mk (rate_limiter self) (email_notifier self)
                      (slack_notifier self))) as [self2 more].
      cbn [fst snd rate_limiter email_notifier slack_notifier] in IH |- *.
      destruct IH as (L & E & S & G & A).
      repeat split; auto.
Qed.

End MonitorFacts.

(** X3: the callback of the monitor, [handle_error_detected], does to the
    notifier what [send_all_alerts] does: the same limiter afterwards and
    the same channel attempts, in the same order. *)
Theorem X3_callback_agrees_with_send_all_alerts
    (now : Z) (notifier : NotificationManager.t) (info : error_info) :
  LogMonitorDemo.handle_error_detected now notifier info
  = (snd (fst (NotificationManager.send_all_alerts now notifier info)),
     snd (NotificationManager.send_all_alerts now notifier info)).
Proof.
  destruct (RateLimiter.elapsed (NotificationManager.rate_limiter notifier)
                                now) eqn:He.
  - rewrite (MonitorFacts.handle_error_detected_granted _ _ _ He),
      (NotificationFacts.send_all_alerts_granted _ _ _ He).
    reflexivity.
  - rewrite (MonitorFacts.handle_error_detected_denied _ _ _ He),
      (NotificationFacts.send_all_alerts_denied _ _ _ He).
    reflexivity.
Qed.

(** X4: when the records of a burst reach the callback of the monitor
    with clock readings in a window shorter than the interval, at most one
    of them is notified: the trace holds at most one grant, every
    configured channel is attempted at most once, and only when a grant
    was given. *)
Theorem X4_burst_notifies_at_most_once
    (detections : list (Z * error_info)) (notifier : NotificationManager.t) :
  RateLimiter.within_window
    (RateLimiter.min_interval (NotificationManager.rate_limiter notifier))
    (map fst detections) ->
  let acts := snd (LogMonitorDemo.handle_all detections notifier) in
  List.length (LogMonitorDemo.grants_of acts) <= 1
  /\ (NotificationManager.attempts acts = []
      \/ NotificationManager.attempts acts
         = NotificationManager.configured notifier)
  /\ (LogMonitorDemo.grants_of acts = [] ->
      NotificationManager.attempts acts = []).
Proof.
  intros Hw acts. subst acts.
  destruct (MonitorFacts.handle_all_spec detections notifier)
    as (_ & _ & _ & G & A).
  cbn zeta in G, A.
  assert (L : List.length
                (LogMonitorDemo.grants_of
                   (snd (LogMonitorDemo.handle_all detections notifier)))
              <= 1).
  { rewrite G, RateLimiterRunFacts.grant_times_length.
    destruct (NotificationManager.rate_limiter notifier) as [S last].
    cbn [RateLimiter.min_interval] in Hw.
    rewrite (proj1 (RateLimiterFacts.calls_in_window S last _ Hw)).
    destruct (existsb _ _); lia. }
  split; [exact L|].
  rewrite A.
  destruct (LogMonitorDemo.grants_of
              (snd (LogMonitorDemo.handle_all detections notifier)))
    as [|g [|g' gs]].
  - cbn. auto.
  - cbn. rewrite app_nil_r. split; [now right|discriminate].
  - cbn in L. lia.
Qed.

(** Three records of the same second on a manager with an interval of five
    minutes. *)
Lemma X4_burst_notifies_at_most_once_witness :
  RateLimiter.within_window
    (RateLimiter.min_interval
       (NotificationManager.rate_limiter
          (Scenario.manager (Some Scenario.failing_email)
                            (Some Scenario.working_slack))))
    (map fst [(1700000000%Z, Scenario.db_record);
              (1700000000%Z, Scenario.db_record);
              (1700000001%Z, Scenario.db_record)])
  /\ List.length
       (LogMonitorDemo.grants_of
          (snd (LogMonitorDemo.handle_all
                  [(1700000000%Z, Scenario.db_record);
                   (1700000000%Z, Scenario.db_record);
                   (1700000001%Z, Scenario.db_record)]
                  (Scenario.manager (Some Scenario.failing_email)
                                    (Some Scenario.working_slack))))) <= 1.
Proof.
  assert (W : RateLimiter.within_window
    (RateLimiter.min_interval
       (NotificationManager.rate_limiter
          (Scenario.manager (Some Scenario.failing_email)
                            (Some Scenario.working_slack))))
    (map fst [(1700000000%Z, Scenario.db_record);
              (1700000000%Z, Scenario.db_record);
              (1700000001%Z, Scenario.db_record)])).
  { intros a b [<-|[<-|[<-|[]]]] [<-|[<-|[<-|[]]]]; cbn; lia. }
  split; [exact W|].
  exact (proj1 (X4_burst_notifies_at_most_once _ _ W)).
Defined.

(** X5: [test_notifications] resets the limiter first, so when the clock
    is at least the interval the test goes out on every configured channel
    whatever the limiter held before; it leaves the limiter at the current
    time, so an alert that follows within the interval is refused. *)
Theorem X5_test_notification_takes_the_permit
    (clk : LogMonitorDemo.test_clock) (now : Z)
    (self : NotificationManager.t) :
  (RateLimiter.min_interval (NotificationManager.rate_limiter self) <= now)%Z ->
  let r := LogMonitorDemo.test_notifications clk now self in
  NotificationManager.attempts (snd r) = NotificationManager.configured self
  /\ RateLimiter.last_notification_time
       (NotificationManager.rate_limiter (snd (fst r))) = now
  /\ forall later info,
       (later - now
          < RateLimiter.min_interval (NotificationManager.rate_limiter self))%Z ->
       NotificationManager.send_all_alerts later (snd (fst r)) info
       = ({| NotificationManager.email_sent := false;
             NotificationManager.slack_sent := false;
             NotificationManager.any_sent := false |},
          snd (fst r), [NotificationManager.Denied later]).
Proof.
  intros HS r. subst r. unfold LogMonitorDemo.test_notifications.
  set (test_error := {| timestamp := _ |}).
  set (self1 := NotificationManager.mk _ _ _).
  assert (He : RateLimiter.elapsed (NotificationManager.rate_limiter self1)
                                   now = true).
  { unfold RateLimiter.elapsed, self1, RateLimiter.reset. cbn.
    apply Z.leb_le. lia. }
  rewrite (NotificationFacts.send_all_alerts_granted _ _ _ He).
  cbn [fst snd NotificationManager.rate_limiter
       RateLimiter.last_notification_time].
  split.
  { cbn [NotificationManager.attempts].
    unfold self1 at 1 2.
    cbn [NotificationManager.email_notifier
         NotificationManager.slack_notifier].
    apply (MonitorFacts.sends_attempt_configured _ self test_error). }
  split; [reflexivity|].
  intros later info Hlater.
  rewrite NotificationFacts.send_all_alerts_denied; [reflexivity|].
  unfold RateLimiter.elapsed, self1, RateLimiter.reset. cbn.
  apply Z.leb_gt. exact Hlater.
Qed.

(** A test right after an alert was sent: it goes out all the same. *)
Lemma X5_test_notification_takes_the_permit_witness :
  (RateLimiter.min_interval
     (NotificationManager.rate_limiter
        (NotificationManager.mk (RateLimiter.mk 300 1700000000)
           (Some Scenario.failing_email) (Some Scenario.working_slack)))
   <= 1700000001)%Z
  /\ NotificationManager.attempts
       (snd (LogMonitorDemo.test_notifications
               {| LogMonitorDemo.timestamp_now := "2026-11-03 10:00:00";
                  LogMonitorDemo.line_now := "2026-11-03 10:00:00";
                  LogMonitorDemo.detected_now := "2026-11-03T10:00:00.000250" |}
               1700000001
               (NotificationManager.mk (RateLimiter.mk 300 1700000000)
                  (Some Scenario.failing_email)
                  (Some Scenario.working_slack))))
     = [NotificationManager.Email; NotificationManager.Slack].
Proof.
  split; [cbn; lia|].
  refine (proj1 (X5_test_notification_takes_the_permit _ 1700000001
                   (NotificationManager.mk (RateLimiter.mk 300 1700000000)
                      (Some Scenario.failing_email)
                      (Some Scenario.working_slack)) _)).
  cbn; lia.
Defined.

(** ** The extractor *)

Module ExtractorFacts.

Import PyStr Re LogFileHandler.

Lemma upper_char_lower c : upper_char (lower c) = upper_char c.
Proof.
  destruct c as [[] [] [] [] [] [] [] []]; vm_compute; reflexivity.
Qed.

Lemma upper_char_ieq p c :
  Ascii.eqb (lower p) (lower c) = true -> upper_char c = upper_char p.
Proof.
  intros H. apply Ascii.eqb_eq in H.
  now rewrite <- (upper_char_lower c), <- H, upper_char_lower.
Qed.

(** What matches a word ignoring case is the word, in upper case. *)
Lemma imatch_upper w s before m rest b :
  imatch w s before = Some (m, rest, b) -> upper m = upper w.
Proof.
  revert s before m rest b.
  induction w as [|p w IH]; intros s before m rest b H; cbn [imatch] in H.
  - now injection H as <- _ _.
  - destruct s as [|c s]; [discriminate|].
    destruct (Ascii.eqb (lower p) (lower c)) eqn:E; [|discriminate].
    destruct (imatch w s (isword c)) as [[[m' rest'] b']|] eqn:Em;
      [|discriminate].
    injection H as <- _ _. cbn [upper].
    now rewrite (upper_char_ieq _ _ E), (IH _ _ _ _ _ Em).
Qed.

Lemma first_alternative_upper alts s before m :
  first_alternative alts s before = Some m -> In (upper m) (map upper alts).
Proof.
  induction alts as [|w alts IH]; cbn [first_alternative]; [discriminate|].
  destruct (imatch w s before) as [[[m' rest] b]|] eqn:E.
  - destruct (word_boundary b rest).
    + intros [= <-]. left. symmetry. exact (imatch_upper _ _ _ _ _ _ E).
    + intros H. right. now apply IH.
  - intros H. right. now apply IH.
Qed.

Lemma search_words_upper alts s m :
  search_words alts s = Some m -> In (upper m) (map upper alts).
Proof.
  unfold search_words. generalize false as before.
  induction s as [|c s IH]; intros before; cbn [search_words_from].
  - destruct (word_boundary before ""); [|discriminate].
    destruct (first_alternative alts "" before) eqn:E; [|discriminate].
    intros [= <-]. exact (first_alternative_upper _ _ _ _ E).
  - destruct (if word_boundary before (String c s)
              then first_alternative alts (String c s) before
              else None) as [m'|] eqn:E.
    + intros [= <-]. destruct (word_boundary before (String c s));
        [|discriminate].
      exact (first_alternative_upper _ _ _ _ E).
    + apply IH.
Qed.

Lemma find_level_levels l lv :
  find_level level_patterns l = Some lv ->
  In lv ["ERROR"; "CRITICAL"; "FATAL"; "EXCEPTION"; "FAIL"; "WARN"; "WARNING"].
Proof.
  unfold level_patterns. cbn [find_level].
  destruct (search_words ["ERROR"; "CRITICAL"; "FATAL"; "EXCEPTION"; "FAIL"] l)
    as [m|] eqn:E1.
  - intros [= <-]. apply search_words_upper in E1. cbn in E1.
    cbn. tauto.
  - destruct (search_words ["WARN"; "WARNING"] l) as [m|] eqn:E2;
      [|discriminate].
    intros [= <-]. apply search_words_upper in E2. cbn in E2.
    cbn. tauto.
Qed.

(** *** The timestamp patterns *)

Lemma match_here_split p1 p2 s m :
  match_here (p1 ++ p2) s = Some m -> exists m1, match_here p1 s = Some m1.
Proof.
  revert s m. induction p1 as [|a p1 IH]; intros s m H.
  - now exists "".
  - cbn [app match_here] in H |- *.
    destruct s as [|c s]; [discriminate|].
    destruct (atom_matches a c); [|discriminate].
    destruct (match_here (p1 ++ p2) s) as [m'|] eqn:E; [|discriminate].
    destruct (IH _ _ E) as [m1 ->]. now eexists.
Qed.

Lemma search_here p s m : match_here p s = Some m -> search p s = Some m.
Proof. intros H. destruct s; cbn [search]; now rewrite H. Qed.

Lemma search_none_tail p c s :
  search p (String c s) = None -> search p s = None.
Proof. cbn [search]. now destruct (match_here p (String c s)). Qed.

(** Where the bare pattern finds nothing, the pattern in brackets finds
    nothing either. *)
Lemma search_bracketed_none p q l :
  search p l = None -> search (Lit "[" :: p ++ q) l = None.
Proof.
  induction l as [|c l IH]; intros H.
  - reflexivity.
  - pose proof (search_none_tail _ _ _ H) as Ht.
    cbn [search].
    destruct (match_here (Lit "[" :: p ++ q) (String c l)) as [m|] eqn:E;
      [|now apply IH].
    exfalso. cbn [match_here] in E.
    destruct (atom_matches (Lit "[") c); [|discriminate].
    destruct (match_here (p ++ q) l) as [m'|] eqn:E'; [|discriminate].
    destruct (match_here_split _ _ _ _ E') as [m1 H1].
    rewrite (search_here _ _ _ H1) in Ht. discriminate.
Qed.

Lemma match_here_length p s m :
  match_here p s = Some m -> String.length m = List.length p.
Proof.
  revert s m. induction p as [|a p IH]; intros s m H; cbn [match_here] in H.
  - now injection H as <-.
  - destruct s as [|c s]; [discriminate|].
    destruct (atom_matches a c); [|discriminate].
    destruct (match_here p s) as [m'|] eqn:E; [|discriminate].
    injection H as <-. cbn. now rewrite (IH _ _ E).
Qed.

Lemma search_length p s m :
  search p s = Some m -> String.length m = List.length p.
Proof.
  intros H. destruct (ReFacts.search_match_here _ _ _ H) as [s' Hs'].
  exact (match_here_length _ _ _ Hs').
Qed.

(** *** Stripping *)

Lemma lstrip_by_idem p s : lstrip_by p (lstrip_by p s) = lstrip_by p s.
Proof.
  induction s as [|c s IH]; [reflexivity|].
  cbn [lstrip_by]. destruct (p c) eqn:Hc; [exact IH|].
  cbn [lstrip_by]. now rewrite Hc.
Qed.

Lemma rstrip_by_idem p s : rstrip_by p (rstrip_by p s) = rstrip_by p s.
Proof.
  induction s as [|c s IH]; [reflexivity|].
  cbn [rstrip_by]. destruct (rstrip_by p s) as [|d r] eqn:E.
  - destruct (p c) eqn:Hc; [reflexivity|]. cbn. now rewrite Hc.
  - cbn [rstrip_by]. cbn [rstrip_by] in IH. now rewrite IH.
Qed.

Lemma strip_by_idem p s : strip_by p (strip_by p s) = strip_by p s.
Proof.
  unfold strip_by.
  rewrite <- (SplitFacts.lstrip_rstrip p (lstrip_by p s)).
  now rewrite rstrip_by_idem, lstrip_by_idem.
Qed.

Lemma length_lstrip_by p s :
  String.length (lstrip_by p s) <= String.length s.
Proof.
  induction s as [|c s IH]; cbn [lstrip_by]; [lia|].
  destruct (p c); cbn [String.length] in *; lia.
Qed.

Lemma length_rstrip_by p s :
  String.length (rstrip_by p s) <= String.length s.
Proof.
  induction s as [|c s IH]; cbn [rstrip_by]; [lia|].
  destruct (rstrip_by p s); [destruct (p c)|]; cbn [String.length] in *; lia.
Qed.

Lemma length_strip_by p s :
  String.length (strip_by p s) <= String.length s.
Proof.
  unfold strip_by.
  pose proof (length_rstrip_by p (lstrip_by p s)).
  pose proof (length_lstrip_by p s). lia.
Qed.

Lemma length_drop n s : String.length (drop n s) <= String.length s.
Proof.
  revert s. induction n as [|n IH]; intros s; cbn [drop]; [lia|].
  destruct s as [|c s]; cbn [String.length]; [lia|].
  specialize (IH s). lia.
Qed.

Lemma partition_length sep s before after :
  partition sep s = Some (before, after) ->
  String.length after <= String.length s.
Proof.
  revert before after. induction s as [|c s IH]; intros before after;
    cbn [partition].
  - destruct (prefix sep ""); [|discriminate].
    intros [= <- <-]. apply length_drop.
  - destruct (prefix sep (String c s)).
    + intros [= <- <-]. apply length_drop.
    + destruct (partition sep s) as [[b a]|]; [|discriminate].
      intros [= <- <-]. specialize (IH b a eq_refl). cbn. lia.
Qed.

Lemma split1_second_length sep s :
  String.length (nth 1 (split1 sep s) "") <= String.length s.
Proof.
  unfold split1. destruct (partition sep s) as [[b a]|] eqn:E.
  - cbn. exact (partition_length _ _ _ _ E).
  - cbn. lia.
Qed.

End ExtractorFacts.

(** X6: for a line of code points below 256 (the text of this model,
    where [re.IGNORECASE] matches a letter of the level patterns with its
    two ASCII cases only), the level of a record is always one of ERROR,
    CRITICAL, FATAL, EXCEPTION, FAIL, WARN, WARNING and UNKNOWN, in upper
    case whatever the case in the line; it is UNKNOWN exactly when neither
    level pattern finds a word in the line. *)
Theorem X6_level_is_one_of_eight
    (l kw : string) (now : LogFileHandler.clock) :
  In (level (LogFileHandler._extract_error_info l kw now))
     ["ERROR"; "CRITICAL"; "FATAL"; "EXCEPTION"; "FAIL"; "WARN"; "WARNING";
      "UNKNOWN"]
  /\ (level (LogFileHandler._extract_error_info l kw now) = "UNKNOWN"
      <-> LogFileHandler.find_level LogFileHandler.level_patterns l = None).
Proof.
  unfold LogFileHandler._extract_error_info. cbn [level].
  destruct (LogFileHandler.find_level LogFileHandler.level_patterns l)
    as [lv|] eqn:E.
  - pose proof (ExtractorFacts.find_level_levels _ _ E) as H.
    split.
    + cbn in H |- *. tauto.
    + split; [|discriminate].
      intros ->. cbn in H.
      repeat (destruct H as [H|H]; [discriminate|]). contradiction.
  - split; [cbn; tauto|]. split; reflexivity.
Qed.

(** X7: the timestamp pattern in brackets never decides: the timestamp of
    a record is the leftmost text of the form [DDDD-DD-DD DD:DD:DD] in the
    line, of 19 characters, whether brackets surround it or not, and the
    current time when the line has no such text. *)
Theorem X7_bracket_pattern_is_redundant
    (l kw : string) (now : LogFileHandler.clock) :
  LogFileHandler.find_timestamp LogFileHandler.timestamp_patterns l
    = Re.search LogFileHandler.datetime_atoms l
  /\ timestamp (LogFileHandler._extract_error_info l kw now)
     = match Re.search LogFileHandler.datetime_atoms l with
       | Some m => m
       | None => LogFileHandler.now_strftime now
       end
  /\ (forall m, Re.search LogFileHandler.datetime_atoms l = Some m ->
                String.length m = 19).
Proof.
  assert (F : LogFileHandler.find_timestamp
                LogFileHandler.timestamp_patterns l
              = Re.search LogFileHandler.datetime_atoms l).
  { unfold LogFileHandler.timestamp_patterns.
    cbn [LogFileHandler.find_timestamp]. unfold Re.search_group1.
    cbn [Re.atoms Re.group_start Re.group_len].
    destruct (Re.search LogFileHandler.datetime_atoms l) as [m|] eqn:E;
      cbn [option_map].
    - pose proof (ExtractorFacts.search_length _ _ _ E) as Hlen.
      change (List.length LogFileHandler.datetime_atoms) with 19 in Hlen.
      rewrite <- Hlen. now rewrite PyStrFacts.substring_all.
    - now rewrite (ExtractorFacts.search_bracketed_none _ [Re.Lit "]"] _ E). }
  split; [exact F|]. split.
  - unfold LogFileHandler._extract_error_info. cbn [timestamp]. rewrite F.
    destruct (Re.search LogFileHandler.datetime_atoms l) as [m|] eqn:E;
      [|reflexivity].
    pose proof (ExtractorFacts.search_length _ _ _ E) as Hlen.
    destruct m; [discriminate|reflexivity].
  - intros m E. exact (ExtractorFacts.search_length _ _ _ E).
Qed.

(** X8: the message and the raw line of a record carry no whitespace at
    their ends, and neither is longer than the line they come from. *)
Theorem X8_message_and_line_are_stripped
    (l kw : string) (now : LogFileHandler.clock) :
  let r := LogFileHandler._extract_error_info l kw now in
  PyStr.strip (message r) = message r
  /\ PyStr.strip (line r) = line r
  /\ String.length (message r) <= String.length l
  /\ String.length (line r) <= String.length l.
Proof.
  intros r. subst r. unfold LogFileHandler._extract_error_info.
  cbn [message line].
  split; [apply ExtractorFacts.strip_by_idem|].
  split; [apply ExtractorFacts.strip_by_idem|].
  split; [|apply ExtractorFacts.length_strip_by].
  set (lv := match LogFileHandler.find_level _ l with
             | Some lv => lv | None => "UNKNOWN" end).
  pose proof (ExtractorFacts.length_strip_by PyStr.isspace l) as Hl.
  fold (PyStr.strip l) in Hl.
  destruct (PyStr.contains lv l); [|exact Hl].
  destruct (1 <? List.length (PyStr.split1 lv l)); [|exact Hl].
  pose proof (ExtractorFacts.split1_second_length lv l) as H1.
  set (after := nth 1 (PyStr.split1 lv l) "") in *.
  pose proof (ExtractorFacts.length_strip_by
                (fun c => PyStr.mem c ":") after) as H2.
  fold (PyStr.strip_chars ":" after) in H2.
  pose proof (ExtractorFacts.length_strip_by PyStr.isspace
                (PyStr.strip_chars ":" after)) as H3.
  fold (PyStr.strip (PyStr.strip_chars ":" after)) in H3.
  pose proof (ExtractorFacts.length_strip_by PyStr.isspace
                (PyStr.strip (PyStr.strip_chars ":" after))) as H4.
  fold (PyStr.strip (PyStr.strip (PyStr.strip_chars ":" after))) in H4.
  lia.
Qed.

(** ** The tailer *)

Module TailerMoreFacts.

Import PyStr Re LogFileHandler.

Lemma set_last_position_eta self :
  set_last_position (last_position self) self = self.
Proof. now destruct self. Qed.

(** A call changes nothing of the handler but the position. *)
Lemma on_modified_only_moves self event w :
  exists pos, fst (on_modified self event w) = set_last_position pos self.
Proof.
  unfold on_modified.
  destruct (is_directory event
            || negb (src_path event =? log_file_path self)%string).
  { exists (last_position self). now rewrite set_last_position_eta. }
  set (size := _get_file_size w).
  assert (R : exists pos,
             reset_if_truncated size self = set_last_position pos self).
  { unfold reset_if_truncated. destruct (size <? last_position self).
    - now exists 0.
    - exists (last_position self). now rewrite set_last_position_eta. }
  destruct R as [pos0 R]. rewrite R.
  destruct (size <=? last_position (set_last_position pos0 self));
    [now exists pos0|].
  unfold _read_new_content.
  destruct (file_read w _ _) as [new_content|]; [|now exists pos0].
  exists size.
  destruct (truthy _); [destruct (process_lines _ _ _ _) as [acts []]|];
    reflexivity.
Qed.

(** After a call for the file the position is at most the size found. *)
Lemma on_modified_position_bound self event w :
  is_directory event = false ->
  src_path event = log_file_path self ->
  last_position (fst (on_modified self event w)) <= _get_file_size w.
Proof.
  intros Hd Hp. unfold on_modified.
  rewrite Hd, Hp, String.eqb_refl. cbn [negb orb].
  set (size := _get_file_size w).
  assert (R : last_position (reset_if_truncated size self) <= size
              \/ size < last_position (reset_if_truncated size self)).
  { lia. }
  assert (R' : last_position (reset_if_truncated size self) <= size).
  { unfold reset_if_truncated.
    destruct (Nat.ltb_spec size (last_position self)); cbn; lia. }
  destruct (Nat.leb_spec size (last_position (reset_if_truncated size self)));
    [exact R'|].
  unfold _read_new_content.
  destruct (file_read w _ _) as [new_content|]; [|exact R'].
  destruct (truthy _); [destruct (process_lines _ _ _ _) as [acts []]|];
    cbn; lia.
Qed.

(** While the file holds a text, a call for it leaves the position at the
    end of the text. *)
Lemma on_modified_holding_position self event text clk :
  is_directory event = false ->
  src_path event = log_file_path self ->
  last_position (fst (on_modified self event (holding text clk)))
  = String.length text.
Proof.
  intros Hd Hp.
  pose proof (on_modified_position_bound self event (holding text clk) Hd Hp)
    as Hle.
  cbn [_get_file_size holding getsize] in Hle.
  destruct (Nat.leb_spec (String.length text)
              (last_position
                 (reset_if_truncated (String.length text) self))) as [H|H].
  - rewrite (TailerFacts.on_modified_idle self event (holding text clk)
               (String.length text) Hd Hp eq_refl H) in *.
    cbn [fst] in *. lia.
  - rewrite (TailerFacts.on_modified_reading self event (holding text clk)
               (String.length text) Hd Hp eq_refl H).
    now rewrite (proj1 (TailerFacts.read_new_content_spec _
                          (String.length text) (holding text clk) _
                          eq_refl)).
Qed.

Lemma on_modified_path self event w :
  log_file_path (fst (on_modified self event w)) = log_file_path self.
Proof.
  destruct (on_modified_only_moves self event w) as [pos ->]. reflexivity.
Qed.

(** *** The lines handed over *)

Lemma split_pieces_without_sep sep s :
  Forall (fun piece => mem sep piece = false) (split sep s).
Proof.
  induction s as [|c s IH]; cbn [split].
  - now constructor.
  - destruct (Ascii.eqb c sep) eqn:E.
    + constructor; [reflexivity|exact IH].
    + destruct (split sep s) as [|piece rest].
      * constructor; [|constructor]. cbn.
        rewrite Ascii.eqb_sym, E. reflexivity.
      * inversion IH as [|? ? Hp Hr]; subst.
        constructor; [|exact Hr]. cbn.
        now rewrite Ascii.eqb_sym, E.
Qed.

Lemma lines_in_clean new_content l :
  In l (lines_in new_content) ->
  nonblank l = true /\ mem newline l = false.
Proof.
  unfold lines_in. destruct (truthy (strip new_content)); [|intros []].
  intros H. apply filter_In in H. destruct H as [H Hn].
  split; [exact Hn|].
  pose proof (split_pieces_without_sep newline (strip new_content)) as F.
  rewrite Forall_forall in F. now apply F.
Qed.

(** Every line handed over during a call is a line of some buffer. *)
Lemma on_modified_lines self event w l :
  In l (lines_of (snd (on_modified self event w))) ->
  exists new_content, In l (lines_in new_content).
Proof.
  unfold on_modified.
  destruct (is_directory event
            || negb (src_path event =? log_file_path self)%string);
    [intros []|].
  set (size := _get_file_size w).
  set (self1 := reset_if_truncated size self).
  destruct (size <=? last_position self1); [intros []|].
  destruct (file_read w (last_position self1) (size - last_position self1))
    as [new_content|] eqn:Ht.
  - destruct (TailerFacts.read_new_content_spec self1 size w new_content Ht)
      as (_ & _ & _ & skipped & F & _).
    intros H. eexists. rewrite F. apply in_or_app. left. exact H.
  - unfold _read_new_content. rewrite Ht. intros [].
Qed.

Lemma scan_patterns_one z cb l now :
  lines_of (fst (scan_patterns z cb l now)) = []
  /\ List.length (alerts_of (fst (scan_patterns z cb l now))) <= 1
  /\ (cb = None -> fst (scan_patterns z cb l now) = []).
Proof.
  destruct (HandlerFacts.scan_patterns_cases z cb l now)
    as [E|(k & f & _ & Hcb & E)]; rewrite E; cbn.
  - repeat split; auto.
  - repeat split; auto. intros ->. discriminate.
Qed.

(** In a batch there is at most one record per line handed over, and none
    without a callback. *)
Lemma process_lines_alerts self lines clk i :
  List.length (alerts_of (fst (process_lines self lines clk i)))
  <= List.length (lines_of (fst (process_lines self lines clk i)))
  /\ (callback self = None ->
      alerts_of (fst (process_lines self lines clk i)) = []).
Proof.
  revert i. induction lines as [|l lines IH]; intros i.
  - cbn. split; [lia|reflexivity].
  - cbn [process_lines]. destruct (truthy (strip l)); [|apply IH].
    unfold _process_log_line.
    destruct (scan_patterns_one
                (combine (error_patterns self) (error_keywords self))
                (callback self) l (clk i)) as (L & A & N).
    destruct (scan_patterns _ (callback self) l (clk i)) as [acts c].
    cbn [fst] in L, A, N.
    destruct c.
    + specialize (IH (S i)).
      destruct (process_lines self lines clk (S i)) as [more c'].
      cbn [fst lines_of alerts_of] in IH |- *.
      rewrite HandlerFacts.lines_of_app, HandlerFacts.alerts_of_app, L.
      rewrite !length_app. cbn [app List.length].
      destruct IH as [IH1 IH2]. split; [lia|].
      intros Hcb. rewrite (N Hcb), (IH2 Hcb). reflexivity.
    + cbn [fst lines_of alerts_of]. rewrite L. cbn [List.length].
      split; [lia|]. intros Hcb. now rewrite (N Hcb).
Qed.

Lemma on_modified_alert_count self event w :
  List.length (alerts_of (snd (on_modified self event w)))
  <= List.length (lines_of (snd (on_modified self event w)))
  /\ (callback self = None ->
      alerts_of (snd (on_modified self event w)) = []).
Proof.
  unfold on_modified.
  destruct (is_directory event
            || negb (src_path event =? log_file_path self)%string);
    [cbn; split; [lia|reflexivity]|].
  set (size := _get_file_size w).
  assert (Hcb : callback (reset_if_truncated size self) = callback self).
  { unfold reset_if_truncated. now destruct (size <? last_position self). }
  set (self1 := reset_if_truncated size self) in *.
  destruct (size <=? last_position self1);
    [cbn; split; [lia|reflexivity]|].
  unfold _read_new_content.
  destruct (file_read w _ _) as [new_content|];
    [|cbn; split; [lia|reflexivity]].
  destruct (truthy _); [|cbn; split; [lia|reflexivity]].
  match goal with
  | |- context [process_lines ?s ?ls ?c ?i] =>
      pose proof (process_lines_alerts s ls c i) as [P1 P2];
      destruct (process_lines s ls c i) as [acts []]
  end;
  cbn [fst snd lines_of alerts_of callback set_last_position] in *;
  rewrite ?HandlerFacts.lines_of_app, ?HandlerFacts.alerts_of_app,
    ?length_app; cbn [lines_of alerts_of List.length app];
  rewrite ?app_nil_r, ?Nat.add_0_r.
  - split; [exact P1|]. intros H. apply P2. now rewrite <- Hcb in H.
  - split; [exact P1|]. intros H. apply P2. now rewrite <- Hcb in H.
Qed.

End TailerMoreFacts.

(** X9: a change event moves nothing of the handler but the position.  An
    event for a directory or for another path changes nothing and does
    nothing.  After an event for the monitored file the position is at most
    the size just found; when the size cannot be read (the file is gone)
    the position is 0 and nothing is read. *)
Theorem X9_position_never_exceeds_size
    (self : LogFileHandler.t) (event : LogFileHandler.fs_event)
    (w : LogFileHandler.world) :
  let r := LogFileHandler.on_modified self event w in
  (exists pos, fst r = LogFileHandler.set_last_position pos self)
  /\ (LogFileHandler.is_directory event = true
      \/ LogFileHandler.src_path event <> LogFileHandler.log_file_path self ->
      r = (self, []))
  /\ (LogFileHandler.is_directory event = false ->
      LogFileHandler.src_path event = LogFileHandler.log_file_path self ->
      LogFileHandler.last_position (fst r) <= LogFileHandler._get_file_size w
      /\ (LogFileHandler.getsize w = None ->
          LogFileHandler.last_position (fst r) = 0 /\ snd r = [])).
Proof.
  intros r. subst r.
  split; [apply TailerMoreFacts.on_modified_only_moves|].
  split.
  - intros H. unfold LogFileHandler.on_modified.
    destruct H as [->|H]; [reflexivity|].
    apply String.eqb_neq in H. rewrite H. cbn [negb].
    now rewrite orb_true_r.
  - intros Hd Hp.
    pose proof (TailerMoreFacts.on_modified_position_bound self event w Hd Hp)
      as Hle.
    split; [exact Hle|].
    intros Hn.
    assert (Hz : LogFileHandler._get_file_size w = 0)
      by (unfold LogFileHandler._get_file_size; now rewrite Hn).
    split; [lia|].
    unfold LogFileHandler.on_modified.
    rewrite Hd, Hp, String.eqb_refl, Hz. reflexivity.
Qed.

(** The file of the watcher is gone when the event comes. *)
Lemma X9_position_never_exceeds_size_witness :
  (LogFileHandler.is_directory (LogFileHandler.modified Scenario.log_path)
     = false
   /\ LogFileHandler.src_path (LogFileHandler.modified Scenario.log_path)
      = LogFileHandler.log_file_path
          (Scenario.watcher Scenario.quiet Scenario.old_text))
  /\ LogFileHandler.last_position
       (fst (LogFileHandler.on_modified
               (Scenario.watcher Scenario.quiet Scenario.old_text)
               (LogFileHandler.modified Scenario.log_path)
               {| LogFileHandler.getsize := None;
                  LogFileHandler.file_read := fun _ _ => None;
                  LogFileHandler.clocks := Scenario.clocks0 |})) = 0.
Proof.
  split; [split; reflexivity|].
  refine (proj1 (proj2 (proj2 (proj2
    (X9_position_never_exceeds_size
       (Scenario.watcher Scenario.quiet Scenario.old_text)
       (LogFileHandler.modified Scenario.log_path)
       {| LogFileHandler.getsize := None;
          LogFileHandler.file_read := fun _ _ => None;
          LogFileHandler.clocks := Scenario.clocks0 |})) _ _) _)).
  - reflexivity.
  - reflexivity.
  - reflexivity.
Defined.

(** X10: a change event that comes a second time while the file has not
    changed does nothing: after an event for the monitored file, read as
    it was sized, the position is at the end of the file, and the same
    event again reads nothing, hands no line over and leaves the handler as
    it is. *)
Theorem X10_repeated_event_does_nothing
    (self : LogFileHandler.t) (event : LogFileHandler.fs_event)
    (text : string) (clk clk' : nat -> LogFileHandler.clock) :
  LogFileHandler.is_directory event = false ->
  LogFileHandler.src_path event = LogFileHandler.log_file_path self ->
  let self1 :=
    fst (LogFileHandler.on_modified self event
           (LogFileHandler.holding text clk)) in
  LogFileHandler.last_position self1 = String.length text
  /\ LogFileHandler.on_modified self1 event
       (LogFileHandler.holding text clk') = (self1, []).
Proof.
  intros Hd Hp self1.
  assert (Hpos : LogFileHandler.last_position self1 = String.length text)
    by (apply TailerMoreFacts.on_modified_holding_position; assumption).
  split; [exact Hpos|].
  assert (Hp1 : LogFileHandler.src_path event
                = LogFileHandler.log_file_path self1)
    by (unfold self1; now rewrite TailerMoreFacts.on_modified_path).
  assert (R : LogFileHandler.reset_if_truncated (String.length text) self1
              = self1)
    by (apply TailerFacts.reset_if_truncated_not_smaller; lia).
  rewrite (TailerFacts.on_modified_idle self1 event
             (LogFileHandler.holding text clk') (String.length text)
             Hd Hp1 eq_refl)
    by (rewrite R; lia).
  now rewrite R.
Qed.

(** The event of a batch of two lines, delivered twice. *)
Lemma X10_repeated_event_does_nothing_witness :
  (LogFileHandler.is_directory (LogFileHandler.modified Scenario.log_path)
     = false
   /\ LogFileHandler.src_path (LogFileHandler.modified Scenario.log_path)
      = LogFileHandler.log_file_path (Scenario.watcher Scenario.quiet ""))
  /\ snd (LogFileHandler.on_modified
            (fst (LogFileHandler.on_modified
                    (Scenario.watcher Scenario.quiet "")
                    (LogFileHandler.modified Scenario.log_path)
                    (LogFileHandler.holding Scenario.two_errors
                                            Scenario.clocks0)))
            (LogFileHandler.modified Scenario.log_path)
            (LogFileHandler.holding Scenario.two_errors Scenario.clocks0))
     = [].
Proof.
  split; [split; reflexivity|].
  rewrite (proj2 (X10_repeated_event_does_nothing
                    (Scenario.watcher Scenario.quiet "")
                    (LogFileHandler.modified Scenario.log_path)
                    Scenario.two_errors Scenario.clocks0 Scenario.clocks0
                    eq_refl eq_refl)).
  reflexivity.
Defined.

(** X11: when the file cannot be opened or read at an event that found it
    no smaller than the position, the exception is caught, nothing is read
    or handed over and the handler is left as it was, so the event that
    follows is handled as if the failed one had not come: what was to be
    read is read then. *)
Theorem X11_failed_read_loses_nothing
    (self : LogFileHandler.t) (event : LogFileHandler.fs_event)
    (w : LogFileHandler.world) (size : nat) :
  LogFileHandler.is_directory event = false ->
  LogFileHandler.src_path event = LogFileHandler.log_file_path self ->
  LogFileHandler.getsize w = Some size ->
  LogFileHandler.file_read w
    (LogFileHandler.last_position self)
    (size - LogFileHandler.last_position self) = None ->
  LogFileHandler.last_position self <= size ->
  LogFileHandler.on_modified self event w
  = (self, if LogFileHandler.last_position self <? size
           then [LogFileHandler.Caught] else [])
  /\ forall event' w',
       snd (LogFileHandler.run self [(event, w); (event', w')])
       = [snd (LogFileHandler.on_modified self event w);
          snd (LogFileHandler.on_modified self event' w')].
Proof.
  intros Hd Hp Hs Ht Hle.
  assert (R : LogFileHandler.reset_if_truncated size self = self)
    by (apply TailerFacts.reset_if_truncated_not_smaller; lia).
  assert (E : LogFileHandler.on_modified self event w
              = (self, if LogFileHandler.last_position self <? size
                       then [LogFileHandler.Caught] else [])).
  { destruct (Nat.ltb_spec (LogFileHandler.last_position self) size) as [H|H].
    - rewrite (TailerFacts.on_modified_reading self event w size Hd Hp Hs)
        by (rewrite R; exact H).
      rewrite R. unfold LogFileHandler._read_new_content. now rewrite Ht.
    - rewrite (TailerFacts.on_modified_idle self event w size Hd Hp Hs)
        by (rewrite R; exact H).
      now rewrite R. }
  split; [exact E|].
  intros event' w'. cbn [LogFileHandler.run]. rewrite E.
  destruct (LogFileHandler.on_modified self event' w') as [self2 acts].
  reflexivity.
Qed.

(** The file has grown and cannot be opened. *)
Lemma X11_failed_read_loses_nothing_witness :
  (LogFileHandler.last_position (Scenario.watcher Scenario.quiet "") <= 33)
  /\ LogFileHandler.on_modified
       (Scenario.watcher Scenario.quiet "")
       (LogFileHandler.modified Scenario.log_path)
       {| LogFileHandler.getsize := Some 33;
          LogFileHandler.file_read := fun _ _ => None;
          LogFileHandler.clocks := Scenario.clocks0 |}
     = (Scenario.watcher Scenario.quiet "",
        if LogFileHandler.last_position (Scenario.watcher Scenario.quiet "")
           <? 33
        then [LogFileHandler.Caught] else []).
Proof.
  split; [vm_compute; lia|].
  refine (proj1
    (X11_failed_read_loses_nothing
       (Scenario.watcher Scenario.quiet "")
       (LogFileHandler.modified Scenario.log_path)
       {| LogFileHandler.getsize := Some 33;
          LogFileHandler.file_read := fun _ _ => None;
          LogFileHandler.clocks := Scenario.clocks0 |}
       33 _ _ _ _ _)).
  - reflexivity.
  - reflexivity.
  - reflexivity.
  - reflexivity.
  - vm_compute; lia.
Defined.

(** X12: whatever the event and the state of the file, every line handed
    to the line processing is not blank and holds no newline, the callback
    is called at most once per line handed over, and never when the
    handler has no callback. *)
Theorem X12_lines_handed_over_are_clean
    (self : LogFileHandler.t) (event : LogFileHandler.fs_event)
    (w : LogFileHandler.world) :
  let acts := snd (LogFileHandler.on_modified self event w) in
  Forall (fun l => LogFileHandler.nonblank l = true
                   /\ PyStr.mem LogFileHandler.newline l = false)
         (LogFileHandler.lines_of acts)
  /\ List.length (LogFileHandler.alerts_of acts)
     <= List.length (LogFileHandler.lines_of acts)
  /\ (LogFileHandler.callback self = None ->
      LogFileHandler.alerts_of acts = []).
Proof.
  intros acts. subst acts. split.
  - apply Forall_forall. intros l H.
    destruct (TailerMoreFacts.on_modified_lines _ _ _ _ H) as [buffer Hb].
    exact (TailerMoreFacts.lines_in_clean _ _ Hb).
  - apply TailerMoreFacts.on_modified_alert_count.
Qed.

(** ** The configuration and the set-up of the notifiers *)

Module ConfigFacts.

Import PyStr ConfigManager NotifierSetup.

Lemma mem_lstrip_by c p s :
  mem c s = false -> mem c (lstrip_by p s) = false.
Proof.
  induction s as [|d s IH]; [reflexivity|].
  cbn [mem lstrip_by]. intros H. apply orb_false_iff in H.
  destruct H as [H1 H2]. destruct (p d); [now apply IH|].
  cbn [mem]. now rewrite H1, H2.
Qed.

Lemma mem_rstrip_by c p s :
  mem c s = false -> mem c (rstrip_by p s) = false.
Proof.
  induction s as [|d s IH]; [reflexivity|].
  cbn [mem rstrip_by]. intros H. apply orb_false_iff in H.
  destruct H as [H1 H2]. specialize (IH H2).
  destruct (rstrip_by p s) as [|e r].
  - destruct (p d); [reflexivity|]. cbn [mem]. now rewrite H1.
  - cbn [mem] in IH |- *. now rewrite H1, IH.
Qed.

Lemma mem_strip c s : mem c s = false -> mem c (strip s) = false.
Proof.
  intros H. unfold strip, strip_by.
  now apply mem_rstrip_by, mem_lstrip_by.
Qed.

Lemma filter_map_strip (l : list string) :
  map strip (filter (fun s => truthy (strip s)) l)
  = filter truthy (map strip l).
Proof.
  induction l as [|s l IH]; [reflexivity|].
  cbn [filter map]. destruct (truthy (strip s)); cbn [map]; now rewrite IH.
Qed.

Lemma get_some_has_section cfg section opt v :
  get cfg section opt None = Some v -> has_section cfg section = true.
Proof.
  unfold get, has_section.
  destruct (assoc section (config cfg)); [reflexivity|discriminate].
Qed.

Lemma falsy_false v : falsy v = false -> exists s, v = Some s /\ truthy s = true.
Proof.
  destruct v as [s|]; [|discriminate]. cbn.
  intros H. exists s. split; [reflexivity|].
  now destruct (truthy s).
Qed.

(** With a string for fallback, [get] gives what it gives without, or the
    fallback. *)
Lemma get_fallback cfg section opt d :
  get cfg section opt (Some d)
  = match get cfg section opt None with
    | Some v => Some v
    | None => Some d
    end.
Proof.
  unfold get. destruct (assoc section (config cfg)) as [opts|];
    [|reflexivity].
  now destruct (assoc opt opts).
Qed.

End ConfigFacts.

(** X13: the keywords [get_error_keywords] returns are clean: none is
    empty, none has whitespace at its ends, none holds a comma; they are
    the pieces of the configured text between commas, stripped, in order.
    There is none exactly when every piece is blank. *)
Theorem X13_keywords_are_clean (cfg : ConfigManager.t) :
  Forall (fun k => PyStr.truthy k = true
                   /\ PyStr.strip k = k
                   /\ PyStr.mem ConfigManager.comma k = false)
         (ConfigManager.get_error_keywords cfg)
  /\ (ConfigManager.get_error_keywords cfg = []
      <-> Forall (fun piece => PyStr.all PyStr.isspace piece = true)
                 (PyStr.split ConfigManager.comma
                    (ConfigManager.text_of
                       (ConfigManager.get cfg "general" "error_keywords"
                          (Some "ERROR, CRITICAL, EXCEPTION, FATAL"))))).
Proof.
  unfold ConfigManager.get_error_keywords.
  set (text := ConfigManager.text_of _).
  pose proof (TailerMoreFacts.split_pieces_without_sep
                ConfigManager.comma text) as Hsep.
  split.
  - apply Forall_forall. intros k Hk.
    apply filter_In in Hk. destruct Hk as [Hin Ht].
    apply in_map_iff in Hin. destruct Hin as (piece & <- & Hpiece).
    split; [exact Ht|]. split; [apply ExtractorFacts.strip_by_idem|].
    apply ConfigFacts.mem_strip.
    rewrite Forall_forall in Hsep. now apply Hsep.
  - clear Hsep. induction (PyStr.split ConfigManager.comma text)
      as [|piece pieces IH]; cbn [map filter].
    + split; [constructor|reflexivity].
    + pose proof (PyStrFacts.truthy_strip_by PyStr.isspace piece) as Hp.
      fold (PyStr.strip piece) in Hp.
      destruct (PyStr.truthy (PyStr.strip piece)) eqn:Ht.
      * split; [discriminate|].
        intros H. inversion H as [|? ? H1 _]; subst.
        rewrite H1 in Hp. discriminate.
      * split.
        -- intros H. constructor; [|now apply IH].
           symmetry in Hp. now apply negb_false_iff in Hp.
        -- intros H. inversion H; subst. now apply IH.
Qed.

(** X14: when [EmailNotifier.__init__] goes through, its list of
    recipients has at least one entry (an empty text gives one empty
    recipient), and [get_email_settings] gives the same server, port,
    sender and name, with for recipients the non-empty ones of that list,
    in order. *)
Theorem X14_recipients_of_notifier_and_settings
    (int : string -> option Z) (cfg : ConfigManager.t)
    (attrs : NotifierSetup.email_attributes) :
  NotifierSetup.EmailNotifier_init int cfg = Some attrs ->
  1 <= List.length (NotifierSetup.e_recipient_emails attrs)
  /\ exists settings,
       ConfigManager.get_email_settings int cfg = Some (Some settings)
       /\ ConfigManager.recipient_emails settings
          = filter PyStr.truthy (NotifierSetup.e_recipient_emails attrs)
       /\ ConfigManager.smtp_server settings
          = NotifierSetup.e_smtp_server attrs
       /\ ConfigManager.smtp_port settings = NotifierSetup.e_smtp_port attrs
       /\ ConfigManager.sender_email settings
          = NotifierSetup.e_sender_email attrs
       /\ ConfigManager.sender_password settings
          = NotifierSetup.e_sender_password attrs
       /\ ConfigManager.sender_name settings
          = NotifierSetup.e_sender_name attrs.
Proof.
  unfold NotifierSetup.EmailNotifier_init, ConfigManager.get_email_settings.
  destruct (ConfigManager.getint int cfg "email" "smtp_port" (Some 587%Z))
    as [port|]; [|discriminate].
  destruct (ConfigManager.get cfg "email" "recipient_emails" None)
    as [recipients|] eqn:Er; [|discriminate].
  intros [= <-]. cbn [NotifierSetup.e_recipient_emails].
  split.
  - rewrite length_map.
    destruct (SplitFacts.split_nonempty ConfigManager.comma recipients)
      as (piece & rest & ->). cbn. lia.
  - rewrite (ConfigFacts.get_some_has_section _ _ _ _ Er). cbn [negb].
    eexists. split; [reflexivity|].
    cbn. rewrite ConfigFacts.get_fallback, Er. cbn [ConfigManager.text_of].
    split; [apply ConfigFacts.filter_map_strip|]. repeat split.
Qed.

(** A configuration with an empty list of recipients. *)
Lemma X14_recipients_of_notifier_and_settings_witness :
  NotifierSetup.EmailNotifier_init (fun _ => Some 587%Z)
    (ConfigManager.mk [("email", [("recipient_emails", "")])])
  = Some {| NotifierSetup.e_smtp_server := "smtp.gmail.com";
            NotifierSetup.e_smtp_port := Some 587%Z;
            NotifierSetup.e_sender_email := None;
            NotifierSetup.e_sender_password := None;
            NotifierSetup.e_recipient_emails := [""];
            NotifierSetup.e_sender_name := "Log Monitor" |}
  /\ 1 <= List.length [""].
Proof.
  assert (H : NotifierSetup.EmailNotifier_init (fun _ => Some 587%Z)
    (ConfigManager.mk [("email", [("recipient_emails", "")])])
  = Some {| NotifierSetup.e_smtp_server := "smtp.gmail.com";
            NotifierSetup.e_smtp_port := Some 587%Z;
            NotifierSetup.e_sender_email := None;
            NotifierSetup.e_sender_password := None;
            NotifierSetup.e_recipient_emails := [""];
            NotifierSetup.e_sender_name := "Log Monitor" |})
    by reflexivity.
  split; [exact H|].
  exact (proj1 (X14_recipients_of_notifier_and_settings _ _ _ H)).
Defined.

(** X15: when [NotificationManager.__init__] goes through, the limiter is
    fresh with the configured interval; the Slack channel is enabled
    exactly when there is a [slack] section with a non-empty webhook URL,
    so whenever [is_slack_configured] holds (and also with the placeholder
    URL it rejects); the e-mail channel is enabled only with an [email]
    section, a non-empty sender and a list of recipients, and it is
    whenever [is_email_configured] holds and the port is an integer. *)
Theorem X15_channels_enabled_by_configuration
    (int : string -> option Z)
    (smtp : NotifierSetup.email_attributes -> error_info -> completion)
    (webhook : ConfigManager.slack_settings -> error_info -> completion)
    (cfg : ConfigManager.t) (manager : NotificationManager.t) :
  NotifierSetup.NotificationManager_init int smtp webhook cfg = Some manager ->
  (exists rate,
     ConfigManager.get_rate_limit_seconds int cfg = Some (Some rate)
     /\ NotificationManager.rate_limiter manager = RateLimiter.init rate)
  /\ (NotificationManager.slack_notifier manager <> None
      <-> ConfigManager.has_section cfg "slack" = true
          /\ ConfigManager.falsy
               (ConfigManager.get cfg "slack" "webhook_url" None) = false)
  /\ (ConfigManager.is_slack_configured cfg = true ->
      NotificationManager.slack_notifier manager <> None)
  /\ (NotificationManager.email_notifier manager <> None ->
      ConfigManager.has_section cfg "email" = true
      /\ ConfigManager.falsy
           (ConfigManager.get cfg "email" "sender_email" None) = false
      /\ ConfigManager.get cfg "email" "recipient_emails" None <> None)
  /\ (ConfigManager.is_email_configured cfg = true ->
      ConfigManager.getint int cfg "email" "smtp_port" (Some 587%Z) <> None ->
      NotificationManager.email_notifier manager <> None).
Proof.
  unfold NotifierSetup.NotificationManager_init,
    ConfigManager.get_rate_limit_seconds.
  destruct (ConfigManager.getint int cfg "general" "rate_limit_seconds"
              (Some 300%Z)) as [[rate|]|]; try discriminate.
  intros [= <-].
  cbn [NotificationManager.rate_limiter NotificationManager.slack_notifier
       NotificationManager.email_notifier].
  split; [exists rate; split; reflexivity|].
  split.
  { destruct (ConfigManager.has_section cfg "slack");
      destruct (ConfigManager.falsy
                  (ConfigManager.get cfg "slack" "webhook_url" None));
      cbn [andb negb]; split; try tauto; try discriminate;
      intros [? ?]; discriminate. }
  split.
  { unfold ConfigManager.is_slack_configured.
    destruct (ConfigManager.has_section cfg "slack"); cbn [negb andb];
      [|discriminate].
    destruct (ConfigManager.falsy
                (ConfigManager.get cfg "slack" "webhook_url" None));
      cbn [orb negb]; [discriminate|]. intros _. discriminate. }
  split.
  { destruct (ConfigManager.has_section cfg "email"); cbn [andb];
      [|intros H; now contradiction H].
    destruct (ConfigManager.falsy
                (ConfigManager.get cfg "email" "sender_email" None));
      cbn [negb]; [intros H; now contradiction H|].
    unfold NotifierSetup.EmailNotifier_init.
    destruct (ConfigManager.getint int cfg "email" "smtp_port" (Some 587%Z));
      [|intros H; now contradiction H].
    destruct (ConfigManager.get cfg "email" "recipient_emails" None);
      [|intros H; now contradiction H].
    intros _. repeat split. discriminate. }
  unfold ConfigManager.is_email_configured.
  destruct (ConfigManager.has_section cfg "email"); cbn [negb andb];
    [|discriminate].
  cbn [ConfigManager.all_fields_set].
  destruct (ConfigManager.falsy
              (ConfigManager.get cfg "email" "sender_email" None));
    [discriminate|].
  destruct (ConfigManager.falsy
              (ConfigManager.get cfg "email" "sender_password" None));
    [discriminate|].
  destruct (ConfigManager.falsy
              (ConfigManager.get cfg "email" "recipient_emails" None))
    eqn:Er; [discriminate|].
  intros _ Hport. cbn [negb].
  unfold NotifierSetup.EmailNotifier_init.
  destruct (ConfigManager.getint int cfg "email" "smtp_port" (Some 587%Z));
    [|now contradiction Hport].
  destruct (ConfigFacts.falsy_false _ Er) as (s & -> & _).
  discriminate.
Qed.

(** X16: [_validate_configuration] prints no warning exactly when the log
    path and the keywords are there, the [email] section, if present, has
    what [is_email_configured] asks for, and the [slack] section, if
    present, what [is_slack_configured] asks for. *)
Theorem X16_validation_passes_iff_configured
    (resolve : string -> string) (cfg : ConfigManager.t) :
  ConfigManager._validate_configuration resolve cfg = []
  <-> PyStr.truthy (ConfigManager.get_log_file_path resolve cfg) = true
      /\ ConfigManager.get_error_keywords cfg <> []
      /\ (ConfigManager.has_section cfg "email" = true ->
          ConfigManager.is_email_configured cfg = true)
      /\ (ConfigManager.has_section cfg "slack" = true ->
          ConfigManager.is_slack_configured cfg = true).
Proof.
  unfold ConfigManager._validate_configuration,
    ConfigManager.is_email_configured, ConfigManager.is_slack_configured.
  cbn [ConfigManager.all_fields_set].
  destruct (PyStr.truthy (ConfigManager.get_log_file_path resolve cfg));
  destruct (ConfigManager.get_error_keywords cfg);
  destruct (ConfigManager.has_section cfg "email");
  destruct (ConfigManager.has_section cfg "slack");
  destruct (ConfigManager.falsy
              (ConfigManager.get cfg "email" "sender_email" None));
  destruct (ConfigManager.falsy
              (ConfigManager.get cfg "email" "sender_password" None));
  destruct (ConfigManager.falsy
              (ConfigManager.get cfg "email" "recipient_emails" None));
  destruct (ConfigManager.falsy
              (ConfigManager.get cfg "slack" "webhook_url" None)
            || prefix ConfigManager.placeholder_webhook
                 (ConfigManager.text_of
                    (ConfigManager.get cfg "slack" "webhook_url" None)));
  cbn;
  (split;
   [ try discriminate; intros _; repeat split; try discriminate; auto
   | intros (H1 & H2 & H3 & H4);
     try reflexivity; try discriminate; try congruence;
     try (specialize (H3 eq_refl); discriminate);
     try (specialize (H4 eq_refl); discriminate) ]).
Qed.

(** ** The Slack payload *)

Module PayloadFacts.

Import PyStr SlackPayload.

Lemma length_substring_le n m s : String.length (substring n m s) <= m.
Proof.
  revert n m. induction s as [|c s IH]; intros n m.
  - destruct n, m; cbn; lia.
  - destruct n as [|n].
    + destruct m as [|m]; cbn; [lia|]. specialize (IH 0 m). lia.
    + cbn. apply IH.
Qed.

(** The level of a record of the extractor. *)
Lemma extractor_levels l kw now :
  In (level (LogFileHandler._extract_error_info l kw now))
     ["ERROR"; "CRITICAL"; "FATAL"; "EXCEPTION"; "FAIL"; "WARN"; "WARNING";
      "UNKNOWN"].
Proof.
  unfold LogFileHandler._extract_error_info. cbn [level].
  destruct (LogFileHandler.find_level LogFileHandler.level_patterns l)
    as [lv|] eqn:E.
  - pose proof (ExtractorFacts.find_level_levels _ _ E) as H.
    cbn in H |- *. tauto.
  - cbn. tauto.
Qed.

End PayloadFacts.

(** X17: the Slack payload of a record has one attachment; its fields are
    Timestamp, Level, Matched Keyword, Detection Time and Error Message, in
    this order, followed by Full Log Line exactly when the raw line differs
    from the message; its title is at most 105 characters longer than the
    level.  For a record of the extractor the colour is [danger] for the
    levels ERROR, CRITICAL and FATAL, [warning] for EXCEPTION, WARN and
    WARNING, and [good], the colour of the default, for FAIL and
    UNKNOWN. *)
Theorem X17_slack_payload_fields_and_colour
    (channel username : string) (now : Z) :
  (forall info,
     exists a,
       SlackPayload.attachments
         (SlackPayload._create_slack_payload channel username now info) = [a]
       /\ map SlackPayload.f_title (SlackPayload.fields a)
          = ["Timestamp"; "Level"; "Matched Keyword"; "Detection Time";
             "Error Message"]
            ++ (if String.eqb (line info) (message info) then []
                else ["Full Log Line"])
       /\ String.length (SlackPayload.title a)
          <= String.length (level info) + 105)
  /\ (forall l kw clk,
        let info := LogFileHandler._extract_error_info l kw clk in
        exists a,
          SlackPayload.attachments
            (SlackPayload._create_slack_payload channel username now info)
          = [a]
          /\ (SlackPayload.color a = "danger"
              <-> In (level info) ["ERROR"; "CRITICAL"; "FATAL"])
          /\ (SlackPayload.color a = "warning"
              <-> In (level info) ["EXCEPTION"; "WARN"; "WARNING"])
          /\ (SlackPayload.color a = "good"
              <-> In (level info) ["FAIL"; "UNKNOWN"])).
Proof.
  split.
  - intros info. eexists. split; [reflexivity|].
    cbn [SlackPayload.fields SlackPayload.title]. split.
    + destruct (String.eqb (line info) (message info)); reflexivity.
    + rewrite !PyStrFacts.length_append.
      pose proof (PayloadFacts.length_substring_le 0 100 (message info)).
      cbn [String.length]. lia.
  - intros l kw clk info. eexists. split; [reflexivity|].
    cbn [SlackPayload.color].
    pose proof (PayloadFacts.extractor_levels l kw clk) as H.
    fold info in H. generalize dependent (level info). intros lv H.
    cbn in H.
    repeat (destruct H as [<-|H]);
      try contradiction;
      cbn; repeat split; intros; intuition discriminate.
Qed.

(** ** The properties above at concrete inputs *)

(** A line with a word of no level. *)
Lemma X6_level_is_one_of_eight_witness :
  LogFileHandler.find_level LogFileHandler.level_patterns
    "disk failure detected" = None
  /\ level (LogFileHandler._extract_error_info "disk failure detected" "FAIL"
              Scenario.clock0) = "UNKNOWN".
Proof.
  split; [reflexivity|].
  apply (proj2 (X6_level_is_one_of_eight "disk failure detected" "FAIL"
                  Scenario.clock0)).
  reflexivity.
Defined.

(** The timestamp of the line of the database failure. *)
Lemma X7_bracket_pattern_is_redundant_witness :
  Re.search LogFileHandler.datetime_atoms Scenario.db_line
    = Some "2024-01-15 14:30:25"
  /\ String.length "2024-01-15 14:30:25" = 19.
Proof.
  split; [reflexivity|].
  apply (proj2 (proj2 (X7_bracket_pattern_is_redundant Scenario.db_line
                         "ERROR" Scenario.clock0))).
  reflexivity.
Defined.

(** A batch of two error lines for a watcher without callback. *)
Lemma X12_lines_handed_over_are_clean_witness :
  LogFileHandler.callback Scenario2.silent_watcher = None
  /\ LogFileHandler.alerts_of
       (snd (LogFileHandler.on_modified Scenario2.silent_watcher
               (LogFileHandler.modified Scenario.log_path)
               (LogFileHandler.holding Scenario.two_errors Scenario.clocks0)))
     = [].
Proof.
  split; [reflexivity|].
  apply (proj2 (proj2 (X12_lines_handed_over_are_clean
                         Scenario2.silent_watcher
                         (LogFileHandler.modified Scenario.log_path)
                         (LogFileHandler.holding Scenario.two_errors
                                                 Scenario.clocks0)))).
  reflexivity.
Defined.

(** Keywords made of blanks and commas: no keyword. *)
Lemma X13_keywords_are_clean_witness :
  Forall (fun piece => PyStr.all PyStr.isspace piece = true)
         (PyStr.split ConfigManager.comma
            (ConfigManager.text_of
               (ConfigManager.get Scenario2.blank_keywords "general"
                  "error_keywords"
                  (Some "ERROR, CRITICAL, EXCEPTION, FATAL"))))
  /\ ConfigManager.get_error_keywords Scenario2.blank_keywords = [].
Proof.
  assert (H : Forall (fun piece => PyStr.all PyStr.isspace piece = true)
         (PyStr.split ConfigManager.comma
            (ConfigManager.text_of
               (ConfigManager.get Scenario2.blank_keywords "general"
                  "error_keywords"
                  (Some "ERROR, CRITICAL, EXCEPTION, FATAL"))))).
  { vm_compute. repeat constructor. }
  split; [exact H|].
  exact (proj2 (proj2 (X13_keywords_are_clean Scenario2.blank_keywords)) H).
Defined.

(** The full configuration: both channels are enabled. *)
Lemma X15_channels_enabled_by_configuration_witness :
  (ConfigManager.is_slack_configured Scenario2.full_config = true
   /\ exists manager,
        NotifierSetup.NotificationManager_init Scenario2.int_of
          Scenario2.smtp Scenario2.webhook Scenario2.full_config
        = Some manager
        /\ NotificationManager.slack_notifier manager <> None).
Proof.
  split; [reflexivity|].
  eexists. split; [reflexivity|].
  refine (proj1 (proj2 (proj2
    (X15_channels_enabled_by_configuration Scenario2.int_of Scenario2.smtp
       Scenario2.webhook Scenario2.full_config _ eq_refl))) _).
  reflexivity.
Defined.

(** The full configuration passes the validation. *)
Lemma X16_validation_passes_iff_configured_witness :
  (PyStr.truthy
     (ConfigManager.get_log_file_path Scenario2.resolve
        Scenario2.full_config) = true
   /\ ConfigManager.get_error_keywords Scenario2.full_config <> [])
  /\ ConfigManager._validate_configuration Scenario2.resolve
       Scenario2.full_config = [].
Proof.
  split; [split; [reflexivity|discriminate]|].
  apply (proj2 (X16_validation_passes_iff_configured Scenario2.resolve
                  Scenario2.full_config)).
  split; [reflexivity|]. split; [discriminate|].
  split; intros _; reflexivity.
Defined.

(** A record of level FAIL is shown in the colour of the default. *)
Lemma X17_slack_payload_fields_and_colour_witness :
  In (level (LogFileHandler._extract_error_info "backup FAIL: disk"
               "FAIL" Scenario.clock0)) ["FAIL"; "UNKNOWN"]
  /\ exists a,
       SlackPayload.attachments
         (SlackPayload._create_slack_payload "#ops" "Log Monitor" 1700000000
            (LogFileHandler._extract_error_info "backup FAIL: disk"
               "FAIL" Scenario.clock0)) = [a]
       /\ SlackPayload.color a = "good".
Proof.
  assert (H : In (level (LogFileHandler._extract_error_info
                           "backup FAIL: disk" "FAIL" Scenario.clock0))
                 ["FAIL"; "UNKNOWN"]) by (vm_compute; now left).
  split; [exact H|].
  destruct (proj2 (X17_slack_payload_fields_and_colour "#ops" "Log Monitor"
                     1700000000)
              "backup FAIL: disk" "FAIL" Scenario.clock0)
    as (a & Ha & _ & _ & Hgood).
  exists a. split; [exact Ha|]. now apply Hgood.
Defined.
